(** * InfluxDB user and privilege modules

    A shallow embedding of [database/influxdb/influxdb_user.py] and
    [database/influxdb/influxdb_privs.py].

    Both scripts talk to an InfluxDB server through the methods of an
    [InfluxDBClient] object and finish by [module.exit_json] or
    [module.fail_json], which end the process.  A script is embedded as a
    tree of client calls ([prog]); running a tree against a server gives
    the list of calls made, the server state left behind and the way the
    process ended; [printed] gives the message as [AnsibleModule] prints
    it, with the [no_log] parameters masked. *)

From stdpp Require Import base option strings list gmap.
From Stdlib Require Import ZArith Lia Ascii.

Local Open Scope string_scope.
Local Open Scope list_scope.

(** ** Values exchanged with the client library *)

(** The two exception classes the scripts name in their [except] clauses:
    [requests.exceptions.ConnectionError] (printed with [str(e)]) and
    [influxdb.exceptions.InfluxDBClientError] (its [content] attribute). *)
Inductive exn : Type :=
| ConnectionError (text : string)
| InfluxDBClientError (content : string).

(** One element of [client.get_list_users()]: the dictionary
    [{'user': ..., 'admin': ...}]. *)
Record User : Type := mkUser { u_user : string; u_admin : bool }.

(** One element of [client.get_list_grants(username)]: the dictionary
    [{'database': ..., 'privilege': ...}]. *)
Record Grant : Type := mkGrant { g_database : string; g_privilege : string }.

(** The methods of [InfluxDBClient] that the two scripts use. *)
Module InfluxDBClient.

(** The object built by [connect_to_influxdb]; building it sends nothing. *)
Record t : Type := mk { host : string; port : Z; username : string; password : string }.

Inductive call : Type :=
| get_list_users
| get_list_grants (username : string)
| create_user (username password : string) (admin : bool)
| drop_user (username : string)
| grant_admin_privileges (username : string)
| revoke_admin_privileges (username : string)
| grant_privilege (privilege database username : string)
| revoke_privilege (privilege database username : string).

(** What a method hands back when it does not raise. *)
Definition returns (c : call) : Type :=
  match c with
  | get_list_users => list User
  | get_list_grants _ => list Grant
  | _ => unit
  end.

(** The six methods that change the server. *)
Definition mutating (c : call) : bool :=
  match c with
  | get_list_users | get_list_grants _ => false
  | _ => true
  end.

(** [create_user] is the only method that is handed the user's password. *)
Definition transmits_password (c : call) : bool :=
  match c with
  | create_user _ _ _ => true
  | _ => false
  end.

End InfluxDBClient.

Import InfluxDBClient (call, returns, mutating).

(** ** Programs *)

(** What the script hands to [exit_json] and [fail_json] before the
    process ends.  [AnsibleModule] masks the values of the [no_log]
    parameters in a message before it prints it: [printed], below, is
    what appears. *)
Inductive json : Type :=
| Changed (changed : bool)
| Failed (msg : string).

(** How a piece of code ends: it returns a value, an exception leaves it,
    or the process exits (Python's [SystemExit], which no [except] clause
    of the scripts catches). *)
Inductive completion (A : Type) : Type :=
| Returns (a : A)
| Raises (e : exn)
| Exits (j : json).
Arguments Returns {A} a.
Arguments Raises {A} e.
Arguments Exits {A} j.

Inductive prog (A : Type) : Type :=
| Done (d : completion A)
| Call (c : call) (k : returns c + exn -> prog A).
Arguments Done {A} d.
Arguments Call {A} c k.

Fixpoint prog_bind {A B : Type} (f : A -> prog B) (p : prog A) : prog B :=
  match p with
  | Done (Returns a) => f a
  | Done (Raises e) => Done (Raises e)
  | Done (Exits j) => Done (Exits j)
  | Call c k => Call c (fun r => prog_bind f (k r))
  end.

#[export] Instance prog_mret : MRet prog := fun A a => Done (Returns a).
#[export] Instance prog_mbind : MBind prog := fun A B f p => prog_bind f p.

(** [client.method(args)]: the value comes back, or the exception raised
    by the library propagates. *)
Definition invoke (c : call) : prog (returns c) :=
  Call c (fun r => match r with
                   | inl v => Done (Returns v)
                   | inr e => Done (Raises e)
                   end).

(** [try: p except ...: h]: the handler [h] says which exceptions the
    clause catches ([None]: not caught, the exception goes on). *)
Fixpoint try_except {A : Type} (p : prog A) (h : exn -> option (prog A)) : prog A :=
  match p with
  | Done (Raises e) => match h e with
                       | Some q => q
                       | None => Done (Raises e)
                       end
  | Done d => Done d
  | Call c k => Call c (fun r => try_except (k r) h)
  end.

(** [module.exit_json(changed=...)] and [module.fail_json(msg=...)]: the
    process ends, with [msg] the message handed over (see [printed] for
    the message as it is printed). *)
Definition exit_json {A : Type} (changed : bool) : prog A := Done (Exits (Changed changed)).
Definition fail_json {A : Type} (msg : string) : prog A := Done (Exits (Failed msg)).

(** [except requests.exceptions.ConnectionError as e: module.fail_json(msg=str(e))] *)
Definition except_ConnectionError {A : Type} (e : exn) : option (prog A) :=
  match e with
  | ConnectionError text => Some (fail_json text)
  | _ => None
  end.

(** [except exceptions.InfluxDBClientError as e: module.fail_json(msg=e.content)] *)
Definition except_InfluxDBClientError {A : Type} (e : exn) : option (prog A) :=
  match e with
  | InfluxDBClientError content => Some (fail_json content)
  | _ => None
  end.

(** ** Messages and the parameters that are never printed *)

(** Python's [old in s]: [old] occurs in [s] as a substring. *)
Fixpoint occurs (old s : string) : bool :=
  String.prefix old s ||
  match s with
  | EmptyString => false
  | String _ s' => occurs old s'
  end.

(** Python's [s.replace(old, new)]: the occurrences of [old] are replaced
    from left to right, without overlap.  [skip] counts the characters of
    an occurrence just replaced that are still to be passed over. *)
Fixpoint replace_from (old new s : string) (skip : nat) : string :=
  match s with
  | EmptyString => EmptyString
  | String c s' =>
      match skip with
      | S k => replace_from old new s' k
      | O =>
          if String.prefix old s
          then new ++ replace_from old new s' (String.length old - 1)
          else String c (replace_from old new s' 0)
      end
  end.

(** For the empty pattern Python puts [new] before every character and at
    the end. *)
Fixpoint after_each (new s : string) : string :=
  match s with
  | EmptyString => EmptyString
  | String c s' => String c (new ++ after_each new s')
  end.

Definition replace (old new s : string) : string :=
  match old with
  | EmptyString => new ++ after_each new s
  | String _ _ => replace_from old new s 0
  end.

(** Modelled from the spec: the masking [AnsibleModule] applies to a
    message before printing it ([remove_values] of
    [ansible.module_utils.basic], which is not part of the repository).
    The parameters declared [no_log=True] are never printed: a message
    that is one of their values is replaced as a whole, and otherwise
    every occurrence of each value in it is replaced by eight
    asterisks. *)
Definition remove_values (no_log_strings : list string) (value : string) : string :=
  if existsb (String.eqb value) no_log_strings
  then "VALUE_SPECIFIED_IN_NO_LOG_PARAMETER"
  else fold_left (fun v omit_me => replace omit_me "********" v) no_log_strings value.

(** The values [AnsibleModule] keeps from printing, given the values of
    the [no_log] parameters in the order of the argument spec: the empty
    ones are left out and each value is held once. *)
Definition no_log_set (values : list string) : list string :=
  remove_dups (List.filter (fun v => negb (String.eqb v EmptyString)) values).

(** What the process prints when it ends as [d], on a module whose
    [no_log] values are [no_log_values]. *)
Definition printed {A : Type} (no_log_values : list string) (d : completion A)
    : completion A :=
  match d with
  | Exits (Failed msg) => Exits (Failed (remove_values no_log_values msg))
  | _ => d
  end.

(** ** Running a program against a server *)

(** A server answers each call, from its current state, with a value or an
    exception, and moves to a new state. *)
Definition server (S : Type) : Type := forall c : call, S -> (returns c + exn) * S.

(** One entry of the log of a run: the call made, and the exception it
    raised if it did not return. *)
Definition event : Type := call * option exn.

Definition raised {A : Type} (r : A + exn) : option exn :=
  match r with
  | inl _ => None
  | inr e => Some e
  end.

Record execution (S A : Type) : Type := mkExecution {
  log : list event;
  after : S;
  outcome : completion A
}.
Arguments mkExecution {S A} log after outcome.
Arguments log {S A} e.
Arguments after {S A} e.
Arguments outcome {S A} e.

Fixpoint run {S A : Type} (srv : server S) (p : prog A) (s : S) : execution S A :=
  match p with
  | Done d => mkExecution [] s d
  | Call c k =>
      let rs := srv c s in
      let e := run srv (k (fst rs)) (snd rs) in
      mkExecution ((c, raised (fst rs)) :: log e) (after e) (outcome e)
  end.

(** The calls made, in order. *)
Definition trace {S A : Type} (e : execution S A) : list call := map fst (log e).

(** The mutating calls of a list of calls, in order. *)
Definition mutations (t : list call) : list call := List.filter mutating t.

(** The [changed] flag a finished process reported, if it reported one. *)
Definition changed_flag {A : Type} (d : completion A) : option bool :=
  match d with
  | Exits (Changed b) => Some b
  | _ => None
  end.

(** The first user of the list with the given name: the [for] loop of
    [find_user], which returns at the first match and falls off the end
    (Python's [None]) when there is none. *)
Fixpoint first_user (users : list User) (name : string) : option User :=
  match users with
  | [] => None
  | user :: users' =>
      if String.eqb (u_user user) name then Some user else first_user users' name
  end.

(** ** influxdb_user.py *)

Module influxdb_user.

(** [module.params], as [influxdb_argument_spec] shapes them. *)
Record Params : Type := mkParams {
  hostname : string;
  port : Z;
  login_username : string;
  login_password : string;
  name : string;
  password : string;
  admin : bool;
  state : string
}.

Record AnsibleModule : Type := mkModule { params : Params; check_mode : bool }.

(** [module.no_log_values]: [influxdb_argument_spec] declares
    [login_password] and [password] with [no_log=True].  (A Python set:
    the order in which two distinct values are masked matters only where
    their occurrences in a message overlap.) *)
Definition no_log_values (module : AnsibleModule) : list string :=
  no_log_set [login_password (params module); password (params module)].

Definition connect_to_influxdb (module : AnsibleModule) : InfluxDBClient.t :=
  let hostname := hostname (params module) in
  let port := port (params module) in
  let login_username := login_username (params module) in
  let login_password := login_password (params module) in
  InfluxDBClient.mk hostname port login_username login_password.

Definition find_user (module : AnsibleModule) (client : InfluxDBClient.t)
    (name : string) : prog (option User) :=
  try_except
    (users ← invoke InfluxDBClient.get_list_users;
     mret (first_user users name))
    except_ConnectionError.

Definition create_user (module : AnsibleModule) (client : InfluxDBClient.t)
    (name password : string) (admin : bool) : prog unit :=
  (if negb (check_mode module) then
     try_except (invoke (InfluxDBClient.create_user name password admin))
                except_ConnectionError
   else mret tt) ≫= fun _ =>
  exit_json true.

(** The default of [create_user]'s last parameter, [admin=False]. *)
Definition create_user_default_admin : bool := false.

Definition drop_user (module : AnsibleModule) (client : InfluxDBClient.t)
    (name : string) : prog unit :=
  (if negb (check_mode module) then
     try_except (invoke (InfluxDBClient.drop_user name))
                except_InfluxDBClientError
   else mret tt) ≫= fun _ =>
  exit_json true.

Definition grant_admin_privileges (module : AnsibleModule) (client : InfluxDBClient.t)
    (name : string) : prog unit :=
  (if negb (check_mode module) then
     try_except (invoke (InfluxDBClient.grant_admin_privileges name))
                except_InfluxDBClientError
   else mret tt) ≫= fun _ =>
  exit_json true.

Definition revoke_admin_privileges (module : AnsibleModule) (client : InfluxDBClient.t)
    (name : string) : prog unit :=
  (if negb (check_mode module) then
     try_except (invoke (InfluxDBClient.revoke_admin_privileges name))
                except_InfluxDBClientError
   else mret tt) ≫= fun _ =>
  exit_json true.

(** [main], from the point where [AnsibleModule] has parsed and checked
    the parameters.  [HAS_INFLUXDB] is the flag set by the guarded
    import at the top of the script.  A user found in the list is a
    non-empty dictionary, hence true in [if user:]. *)
Definition main (HAS_INFLUXDB : bool) (module : AnsibleModule) : prog unit :=
  (if negb HAS_INFLUXDB
   then fail_json "influxdb python package is required for this module"
   else mret tt) ≫= fun _ =>
  let state := state (params module) in
  let user_name := name (params module) in
  let password := password (params module) in
  let admin := admin (params module) in
  let client := connect_to_influxdb module in
  user ← find_user module client user_name;
  (if String.eqb state "present" then
     match user with
     | Some user =>
         if Bool.eqb (u_admin user) admin then exit_json false
         else if admin then grant_admin_privileges module client user_name
         else revoke_admin_privileges module client user_name
     | None =>
         create_user module client user_name password create_user_default_admin
     end
   else mret tt) ≫= fun _ =>
  (if String.eqb state "absent" then
     match user with
     | Some _ => drop_user module client user_name
     | None => exit_json false
     end
   else mret tt).

End influxdb_user.

(** ** influxdb_privs.py *)

Module influxdb_privs.

(** [module.params], as [influxdb_argument_spec] shapes them. *)
Record Params : Type := mkParams {
  hostname : string;
  port : Z;
  login_username : string;
  login_password : string;
  username : string;
  database : string;
  privilege : string;
  state : string
}.

Record AnsibleModule : Type := mkModule { params : Params; check_mode : bool }.

(** [module.no_log_values]: [influxdb_argument_spec] declares
    [login_password] with [no_log=True]. *)
Definition no_log_values (module : AnsibleModule) : list string :=
  no_log_set [login_password (params module)].

Definition connect_to_influxdb (module : AnsibleModule) : InfluxDBClient.t :=
  let hostname := hostname (params module) in
  let port := port (params module) in
  let login_username := login_username (params module) in
  let login_password := login_password (params module) in
  InfluxDBClient.mk hostname port login_username login_password.

Definition find_user (module : AnsibleModule) (client : InfluxDBClient.t)
    (username : string) : prog (option User) :=
  try_except
    (users ← invoke InfluxDBClient.get_list_users;
     mret (first_user users username))
    except_ConnectionError.

(** The dictionary local to [find_grant]; ['NO PRIVILEGES'] is a key
    whose value is Python's [None]. *)
Definition privilege_map : gmap string (option string) :=
  <["READ" := Some "read"]>
  (<["WRITE" := Some "write"]>
  (<["ALL PRIVILEGES" := Some "all"]>
  (<["NO PRIVILEGES" := None]> ∅))).

(** The [for] loop of [find_grant].  The subscript
    [privilege_map[grant['privilege']]] is only reached for a key of the
    dictionary, so the total lookup never falls back on its default. *)
Fixpoint first_grant (grants : list Grant) (database privilege : string) : option Grant :=
  match grants with
  | [] => None
  | grant :: grants' =>
      if negb (String.eqb (g_database grant) database)
         || negb (bool_decide (is_Some (privilege_map !! g_privilege grant)))
      then first_grant grants' database privilege
      else if bool_decide (privilege_map !!! g_privilege grant = Some privilege)
      then Some grant
      else first_grant grants' database privilege
  end.

(** The double quote character, for the message of [find_grant]. *)
Definition dquote : string := String "034"%char EmptyString.

(** ['No user "{0}".'.format(username)] *)
Definition no_user_msg (username : string) : string :=
  "No user " ++ dquote ++ username ++ dquote ++ ".".

Definition find_grant (module : AnsibleModule) (client : InfluxDBClient.t)
    (privilege database username : string) : prog (option Grant) :=
  user ← find_user module client username;
  (if bool_decide (user = None) then fail_json (no_user_msg username) else mret tt) ≫= fun _ =>
  try_except
    (grants ← invoke (InfluxDBClient.get_list_grants username);
     mret (first_grant grants database privilege))
    except_ConnectionError.

Definition grant_privilege (module : AnsibleModule) (client : InfluxDBClient.t)
    (privilege database username : string) : prog unit :=
  (if negb (check_mode module) then
     try_except (invoke (InfluxDBClient.grant_privilege privilege database username))
                except_ConnectionError
   else mret tt) ≫= fun _ =>
  exit_json true.

Definition revoke_privilege (module : AnsibleModule) (client : InfluxDBClient.t)
    (privilege database username : string) : prog unit :=
  (if negb (check_mode module) then
     try_except (invoke (InfluxDBClient.revoke_privilege privilege database username))
                except_InfluxDBClientError
   else mret tt) ≫= fun _ =>
  exit_json true.

(** [main], from the point where [AnsibleModule] has parsed and checked
    the parameters.  A grant found in the list is a non-empty
    dictionary, hence true in [if grant:]. *)
Definition main (HAS_INFLUXDB : bool) (module : AnsibleModule) : prog unit :=
  (if negb HAS_INFLUXDB
   then fail_json "influxdb python package is required for this module"
   else mret tt) ≫= fun _ =>
  let state := state (params module) in
  let username := username (params module) in
  let database := database (params module) in
  let privilege := privilege (params module) in
  let client := connect_to_influxdb module in
  grant ← find_grant module client privilege database username;
  (if String.eqb state "present" then
     match grant with
     | Some _ => exit_json false
     | None => grant_privilege module client privilege database username
     end
   else mret tt) ≫= fun _ =>
  (if String.eqb state "absent" then
     match grant with
     | Some _ => revoke_privilege module client privilege database username
     | None => exit_json false
     end
   else mret tt).

End influxdb_privs.

(** ** A reference server *)

(** Modelled from the spec: the InfluxDB server behind the client library,
    which is not part of the repository.  Users and grants follow the data
    model: users are unique by name and carry an admin flag, which is
    toggled independently of creation; a (user, database) pair holds one
    privilege level, which a grant replaces.  Where the data model is
    silent (what a revoke leaves behind, which calls are rejected) the
    model follows InfluxDB 1.x: a revoke clears the revoked level and the
    pair is then listed with ['NO PRIVILEGES']; a call on an unknown user
    is rejected. *)

Module Server.

Record t : Type := mk {
  users : list User;
  grants : gmap (string * string) string
}.

Definition empty : t := mk [] ∅.

Definition has_user (sv : t) (name : string) : bool :=
  existsb (fun u => String.eqb (u_user u) name) (users sv).

Definition set_admin (name : string) (admin : bool) (us : list User) : list User :=
  map (fun u => if String.eqb (u_user u) name then mkUser (u_user u) admin else u) us.

Definition remove_user (name : string) (us : list User) : list User :=
  List.filter (fun u => negb (String.eqb (u_user u) name)) us.

(** The level named by the keyword of a GRANT or REVOKE statement, as
    SHOW GRANTS prints it. *)
Definition level_of (privilege : string) : option string :=
  if String.eqb privilege "read" then Some "READ"
  else if String.eqb privilege "write" then Some "WRITE"
  else if String.eqb privilege "all" then Some "ALL PRIVILEGES"
  else None.

(** What is left of a held level once a level is revoked from it. *)
Definition remaining (held revoked : string) : string :=
  if String.eqb revoked "ALL PRIVILEGES" then "NO PRIVILEGES"
  else if String.eqb held revoked then "NO PRIVILEGES"
  else if String.eqb held "ALL PRIVILEGES"
       then (if String.eqb revoked "READ" then "WRITE" else "READ")
  else held.

Definition grants_of (sv : t) (username : string) : list Grant :=
  omap (fun kv : string * string * string =>
          if String.eqb (fst (fst kv)) username
          then Some (mkGrant (snd (fst kv)) (snd kv))
          else None)
       (map_to_list (grants sv)).

Definition not_found : exn := InfluxDBClientError "user not found".

Arguments has_user : simpl never.
Arguments grants_of : simpl never.

Definition step : server t := fun c sv =>
  match c return (returns c + exn) * t with
  | InfluxDBClient.get_list_users => (inl (users sv), sv)
  | InfluxDBClient.get_list_grants username =>
      if has_user sv username then (inl (grants_of sv username), sv)
      else (inr not_found, sv)
  | InfluxDBClient.create_user name _ admin =>
      if has_user sv name then (inr (InfluxDBClientError "user already exists"), sv)
      else (inl tt, mk (users sv ++ [mkUser name admin]) (grants sv))
  | InfluxDBClient.drop_user name =>
      if has_user sv name
      then (inl tt, mk (remove_user name (users sv))
                       (filter (fun kv => fst (fst kv) ≠ name) (grants sv)))
      else (inr not_found, sv)
  | InfluxDBClient.grant_admin_privileges name =>
      if has_user sv name then (inl tt, mk (set_admin name true (users sv)) (grants sv))
      else (inr not_found, sv)
  | InfluxDBClient.revoke_admin_privileges name =>
      if has_user sv name then (inl tt, mk (set_admin name false (users sv)) (grants sv))
      else (inr not_found, sv)
  | InfluxDBClient.grant_privilege privilege database username =>
      match level_of privilege with
      | Some level =>
          if has_user sv username
          then (inl tt, mk (users sv) (<[(username, database) := level]> (grants sv)))
          else (inr not_found, sv)
      | None => (inr (InfluxDBClientError "error parsing query"), sv)
      end
  | InfluxDBClient.revoke_privilege privilege database username =>
      match level_of privilege with
      | Some level =>
          if has_user sv username
          then (inl tt,
                mk (users sv)
                   (<[(username, database) :=
                        remaining (default "NO PRIVILEGES" (grants sv !! (username, database)))
                                  level]> (grants sv)))
          else (inr not_found, sv)
      | None => (inr (InfluxDBClientError "error parsing query"), sv)
      end
  end.

(** The same server seen through a login that may read but not write:
    every mutating call is rejected. *)
Definition read_only : server t := fun c sv =>
  match c return (returns c + exn) * t with
  | InfluxDBClient.get_list_users => step InfluxDBClient.get_list_users sv
  | InfluxDBClient.get_list_grants username =>
      step (InfluxDBClient.get_list_grants username) sv
  | _ => (inr (InfluxDBClientError "error authorizing query"), sv)
  end.

(** The same server seen through a login it knows but that holds no
    rights: every mutating call is rejected, in words that name the
    login. *)
Definition unauthorized (login_username : string) : server t := fun c sv =>
  match c return (returns c + exn) * t with
  | InfluxDBClient.get_list_users => step InfluxDBClient.get_list_users sv
  | InfluxDBClient.get_list_grants username =>
      step (InfluxDBClient.get_list_grants username) sv
  | _ => (inr (InfluxDBClientError ("user " ++ login_username ++ " not authorized")), sv)
  end.

(** A server that cannot be reached: every call fails in the transport. *)
Definition unreachable : server t := fun c sv =>
  (inr (ConnectionError "Connection refused"), sv).

End Server.

(** ** Vocabulary of the properties *)

(** The operations whose transport failures the scripts catch, and those
    whose rejections by the server they catch. *)
Definition transport_class (c : call) : bool :=
  match c with
  | InfluxDBClient.get_list_users
  | InfluxDBClient.get_list_grants _
  | InfluxDBClient.create_user _ _ _
  | InfluxDBClient.grant_privilege _ _ _ => true
  | _ => false
  end.

Definition rejection_class (c : call) : bool :=
  match c with
  | InfluxDBClient.drop_user _
  | InfluxDBClient.grant_admin_privileges _
  | InfluxDBClient.revoke_admin_privileges _
  | InfluxDBClient.revoke_privilege _ _ _ => true
  | _ => false
  end.

(** A listed grant that counts for a request: on the requested database,
    with one of the three privilege strings that name the requested level. *)
Definition grant_matches (database privilege : string) (g : Grant) : Prop :=
  g_database g = database /\
  ((g_privilege g = "READ" /\ privilege = "read") \/
   (g_privilege g = "WRITE" /\ privilege = "write") \/
   (g_privilege g = "ALL PRIVILEGES" /\ privilege = "all")).

(** The run issued exactly the mutating calls [issued] and reported
    [changed]. *)
Definition reports {S : Type} (e : execution S unit) (issued : list call) (changed : bool) : Prop :=
  mutations (trace e) = issued /\ outcome e = Exits (Changed changed).

(** The run issued the one mutating call [c], and reported [changed=true]
    if that call returned. *)
Definition applies {S : Type} (e : execution S unit) (c : call) : Prop :=
  mutations (trace e) = [c] /\
  ((c, None) ∈ log e -> outcome e = Exits (Changed true)).

(** The call that brings the admin flag of an existing user to the
    requested value. *)
Definition toggle_admin (name : string) (admin : bool) : call :=
  if admin then InfluxDBClient.grant_admin_privileges name
  else InfluxDBClient.revoke_admin_privileges name.

(** The five rows of the user module's table, read for every invocation
    that lists the users [users]. *)
Definition user_table {S : Type} (srv : server S) (s : S)
    (module : influxdb_user.AnsibleModule) : Prop :=
  let p := influxdb_user.params module in
  let e := run srv (influxdb_user.main true module) s in
  forall users s', srv InfluxDBClient.get_list_users s = (inl users, s') ->
    let found := first_user users (influxdb_user.name p) in
    (influxdb_user.state p = "present" ->
       forall u, found = Some u -> u_admin u = influxdb_user.admin p ->
       reports e [] false) /\
    (influxdb_user.state p = "present" ->
       forall u, found = Some u -> u_admin u <> influxdb_user.admin p ->
       reports e [toggle_admin (influxdb_user.name p) (influxdb_user.admin p)] true) /\
    (influxdb_user.state p = "present" -> found = None ->
       exists a, reports e [InfluxDBClient.create_user (influxdb_user.name p)
                              (influxdb_user.password p) a] true) /\
    (influxdb_user.state p = "absent" ->
       forall u, found = Some u ->
       reports e [InfluxDBClient.drop_user (influxdb_user.name p)] true) /\
    (influxdb_user.state p = "absent" -> found = None -> reports e [] false).

(** The four rows of the privilege module's table, read for every
    invocation on a listed user whose grants are [grants]. *)
Definition privs_table {S : Type} (srv : server S) (s : S)
    (module : influxdb_privs.AnsibleModule) : Prop :=
  let p := influxdb_privs.params module in
  let e := run srv (influxdb_privs.main true module) s in
  let wanted := grant_matches (influxdb_privs.database p) (influxdb_privs.privilege p) in
  forall users s' u grants s'',
    srv InfluxDBClient.get_list_users s = (inl users, s') ->
    first_user users (influxdb_privs.username p) = Some u ->
    srv (InfluxDBClient.get_list_grants (influxdb_privs.username p)) s' = (inl grants, s'') ->
    (influxdb_privs.state p = "present" -> (exists g, g ∈ grants /\ wanted g) ->
       reports e [] false) /\
    (influxdb_privs.state p = "present" -> (forall g, g ∈ grants -> ~ wanted g) ->
       reports e [InfluxDBClient.grant_privilege (influxdb_privs.privilege p)
                    (influxdb_privs.database p) (influxdb_privs.username p)] true) /\
    (influxdb_privs.state p = "absent" -> (exists g, g ∈ grants /\ wanted g) ->
       reports e [InfluxDBClient.revoke_privilege (influxdb_privs.privilege p)
                    (influxdb_privs.database p) (influxdb_privs.username p)] true) /\
    (influxdb_privs.state p = "absent" -> (forall g, g ∈ grants -> ~ wanted g) ->
       reports e [] false).

(** Sample invocations. *)
Definition todd (admin : bool) (state : string) (check_mode : bool)
    : influxdb_user.AnsibleModule :=
  influxdb_user.mkModule
    (influxdb_user.mkParams "localhost" 8086 "root" "root" "todd" "secret" admin state)
    check_mode.

Definition todd_privs (privilege state : string) (check_mode : bool)
    : influxdb_privs.AnsibleModule :=
  influxdb_privs.mkModule
    (influxdb_privs.mkParams "localhost" 8086 "root" "root"
       "todd" "NOAA_water_database" privilege state)
    check_mode.

(** A server on which ["todd"] exists and is no administrator. *)
Definition todd_server : Server.t := Server.mk [mkUser "todd" false] ∅.

(** The same server once ["todd"] holds all privileges on the sample
    database and an unreadable entry on another one. *)
Definition todd_all_server : Server.t :=
  Server.mk [mkUser "todd" false]
    (<[("todd", "NOAA_water_database") := "ALL PRIVILEGES"]>
     (<[("todd", "telegraf") := "OWNER"]> ∅)).

(** The same invocation with another password. *)
Definition with_password (p : influxdb_user.Params) (password : string) : influxdb_user.Params :=
  influxdb_user.mkParams
    (influxdb_user.hostname p) (influxdb_user.port p)
    (influxdb_user.login_username p) (influxdb_user.login_password p)
    (influxdb_user.name p) password (influxdb_user.admin p) (influxdb_user.state p).

(** A mutating call, if the list has one, is its last element. *)
Fixpoint mutation_last (t : list call) : bool :=
  match t with
  | [] => true
  | c :: t' => if mutating c then bool_decide (t' = []) else mutation_last t'
  end.

(** Every exception a call of the run raised, in an operation of the class
    that catches it, was handed to [fail_json] as the fatal message of the
    run. *)
Definition surfaces {S : Type} (e : execution S unit) : Prop :=
  forall c x, (c, Some x) ∈ log e ->
    (forall text, transport_class c = true -> x = ConnectionError text ->
       outcome e = Exits (Failed text)) /\
    (forall content, rejection_class c = true -> x = InfluxDBClientError content ->
       outcome e = Exits (Failed content)).

(** ** More vocabulary: what a call is about *)

(** The user a call names, when it names one. *)
Definition call_username (c : call) : option string :=
  match c with
  | InfluxDBClient.get_list_users => None
  | InfluxDBClient.get_list_grants username
  | InfluxDBClient.create_user username _ _
  | InfluxDBClient.drop_user username
  | InfluxDBClient.grant_admin_privileges username
  | InfluxDBClient.revoke_admin_privileges username
  | InfluxDBClient.grant_privilege _ _ username
  | InfluxDBClient.revoke_privilege _ _ username => Some username
  end.

(** The database and the privilege keyword a call names, when it names
    them. *)
Definition call_grant (c : call) : option (string * string) :=
  match c with
  | InfluxDBClient.grant_privilege privilege database _
  | InfluxDBClient.revoke_privilege privilege database _ => Some (privilege, database)
  | _ => None
  end.

(** The methods [influxdb_user.py] calls, and those [influxdb_privs.py]
    calls. *)
Definition user_operation (c : call) : bool :=
  match c with
  | InfluxDBClient.get_list_users
  | InfluxDBClient.create_user _ _ _
  | InfluxDBClient.drop_user _
  | InfluxDBClient.grant_admin_privileges _
  | InfluxDBClient.revoke_admin_privileges _ => true
  | _ => false
  end.

Definition privs_operation (c : call) : bool :=
  match c with
  | InfluxDBClient.get_list_users
  | InfluxDBClient.get_list_grants _
  | InfluxDBClient.grant_privilege _ _ _
  | InfluxDBClient.revoke_privilege _ _ _ => true
  | _ => false
  end.

(** A call that raised, if the log has one, is its last entry. *)
Fixpoint error_last (l : list event) : bool :=
  match l with
  | [] => true
  | (_, Some _) :: l' => bool_decide (l' = [])
  | (_, None) :: l' => error_last l'
  end.

(** Every exception a call of the run raised, in an operation of the class
    that does not catch it, left the script uncaught. *)
Definition escapes {S : Type} (e : execution S unit) : Prop :=
  forall c x, (c, Some x) ∈ log e ->
    (forall content, transport_class c = true -> x = InfluxDBClientError content ->
       outcome e = Raises x) /\
    (forall text, rejection_class c = true -> x = ConnectionError text ->
       outcome e = Raises x).

(** The flag a run reports says what it did: [changed=false] only when it
    made no mutating call, and, outside a dry run, [changed=true] only
    when it made one and that call returned. *)
Definition flag_sound {S : Type} (check_mode : bool) (e : execution S unit) : Prop :=
  (outcome e = Exits (Changed false) -> mutations (trace e) = []) /\
  (check_mode = false -> outcome e = Exits (Changed true) ->
     exists c, mutations (trace e) = [c] /\ (c, None) ∈ log e).

(** ** More vocabulary: dry runs and printed messages *)

(** A dry run beside the real run of the same invocation on the same
    server, read as an equality of flags: it mutates nothing and reports
    what the real run reports. *)
Definition dry_run_same_flag {S : Type} (dry real : execution S unit) : Prop :=
  mutations (trace dry) = [] /\
  changed_flag (outcome dry) = changed_flag (outcome real).

(** A dry run beside the real run, as the scripts have it: the dry run
    mutates nothing; it is the real run when that one mutates nothing;
    when the real run makes the mutating call [c], the dry run is the real
    run cut before that call and reports [changed=true], which is what the
    real run reports if [c] returns; so whenever the real run reports a
    flag, the dry run reports the same. *)
Definition dry_run_agrees {S : Type} (dry real : execution S unit) : Prop :=
  mutations (trace dry) = [] /\
  (mutations (trace real) = [] -> dry = real) /\
  (forall c, mutations (trace real) = [c] ->
     outcome dry = Exits (Changed true) /\
     (exists r, log real = (log dry ++ [(c, r)])%list) /\
     ((c, None) ∈ log real -> outcome real = Exits (Changed true))) /\
  (forall b, changed_flag (outcome real) = Some b -> changed_flag (outcome dry) = Some b).

(** The table of the user module in a dry run that lists the users
    [users]: the flag of each row, and no mutating call. *)
Definition user_dry_table {S : Type} (srv : server S) (s : S)
    (p : influxdb_user.Params) : Prop :=
  let e := run srv (influxdb_user.main true (influxdb_user.mkModule p true)) s in
  forall users s', srv InfluxDBClient.get_list_users s = (inl users, s') ->
    let found := first_user users (influxdb_user.name p) in
    (influxdb_user.state p = "present" ->
       forall u, found = Some u -> u_admin u = influxdb_user.admin p ->
       reports e [] false) /\
    (influxdb_user.state p = "present" ->
       forall u, found = Some u -> u_admin u <> influxdb_user.admin p ->
       reports e [] true) /\
    (influxdb_user.state p = "present" -> found = None -> reports e [] true) /\
    (influxdb_user.state p = "absent" ->
       forall u, found = Some u -> reports e [] true) /\
    (influxdb_user.state p = "absent" -> found = None -> reports e [] false).

(** The table of the privilege module in a dry run on a listed user whose
    grants are [grants]. *)
Definition privs_dry_table {S : Type} (srv : server S) (s : S)
    (p : influxdb_privs.Params) : Prop :=
  let e := run srv (influxdb_privs.main true (influxdb_privs.mkModule p true)) s in
  let wanted := grant_matches (influxdb_privs.database p) (influxdb_privs.privilege p) in
  forall users s' u grants s'',
    srv InfluxDBClient.get_list_users s = (inl users, s') ->
    first_user users (influxdb_privs.username p) = Some u ->
    srv (InfluxDBClient.get_list_grants (influxdb_privs.username p)) s' = (inl grants, s'') ->
    (influxdb_privs.state p = "present" -> (exists g, g ∈ grants /\ wanted g) ->
       reports e [] false) /\
    (influxdb_privs.state p = "present" -> (forall g, g ∈ grants -> ~ wanted g) ->
       reports e [] true) /\
    (influxdb_privs.state p = "absent" -> (exists g, g ∈ grants /\ wanted g) ->
       reports e [] true) /\
    (influxdb_privs.state p = "absent" -> (forall g, g ∈ grants -> ~ wanted g) ->
       reports e [] false).

(** Every exception a call of the run raised, in an operation of the class
    that catches it, is printed word for word as the fatal message. *)
Definition prints_verbatim {S : Type} (no_log_values : list string)
    (e : execution S unit) : Prop :=
  forall c x, (c, Some x) ∈ log e ->
    (forall text, transport_class c = true -> x = ConnectionError text ->
       printed no_log_values (outcome e) = Exits (Failed text)) /\
    (forall content, rejection_class c = true -> x = InfluxDBClientError content ->
       printed no_log_values (outcome e) = Exits (Failed content)).

(** Every exception a call of the run raised, in an operation of the class
    that catches it, is printed as the fatal message with the [no_log]
    values masked. *)
Definition prints_masked {S : Type} (no_log_values : list string)
    (e : execution S unit) : Prop :=
  forall c x, (c, Some x) ∈ log e ->
    (forall text, transport_class c = true -> x = ConnectionError text ->
       printed no_log_values (outcome e)
       = Exits (Failed (remove_values no_log_values text))) /\
    (forall content, rejection_class c = true -> x = InfluxDBClientError content ->
       printed no_log_values (outcome e)
       = Exits (Failed (remove_values no_log_values content))).

(** A run of the privilege module on a server that lists no user of the
    requested name stops after the listing with a printed fatal message
    in which the name of the user occurs. *)
Definition names_missing_user {S : Type} (srv : server S) (s : S)
    (module : influxdb_privs.AnsibleModule) : Prop :=
  forall users s', srv InfluxDBClient.get_list_users s = (inl users, s') ->
    (forall u, u ∈ users ->
       u_user u <> influxdb_privs.username (influxdb_privs.params module)) ->
    let e := run srv (influxdb_privs.main true module) s in
    log e = [(InfluxDBClient.get_list_users, None)] /\
    exists msg,
      printed (influxdb_privs.no_log_values module) (outcome e) = Exits (Failed msg) /\
      occurs (influxdb_privs.username (influxdb_privs.params module)) msg = true.

(** An invocation of the privilege module for a user named as the default
    login password is. *)
Definition root_privs : influxdb_privs.AnsibleModule :=
  influxdb_privs.mkModule
    (influxdb_privs.mkParams "localhost" 8086 "root" "root"
       "root" "NOAA_water_database" "all" "present")
    false.

(** An invocation of the privilege module for a user the sample server
    does not have. *)
Definition eve_privs : influxdb_privs.AnsibleModule :=
  influxdb_privs.mkModule
    (influxdb_privs.mkParams "localhost" 8086 "root" "root"
       "eve" "NOAA_water_database" "read" "absent")
    false.

(** ** Proof automation *)

Ltac unfold_scripts :=
  unfold influxdb_user.main, influxdb_user.find_user, influxdb_user.create_user,
    influxdb_user.drop_user, influxdb_user.grant_admin_privileges,
    influxdb_user.revoke_admin_privileges, influxdb_user.create_user_default_admin,
    influxdb_privs.main, influxdb_privs.find_grant, influxdb_privs.find_user,
    influxdb_privs.grant_privilege, influxdb_privs.revoke_privilege,
    except_ConnectionError, except_InfluxDBClientError, trace in *.

(** Case analysis on what the server answered to a call. *)
Ltac answer srv c s :=
  let r := fresh "r" in
  let s' := fresh "s" in
  destruct (srv c s) as [[r|[?|?]] s']; cbn [fst snd raised] in *.

(** Follow every path of a run. *)
Ltac split_run :=
  repeat first
    [ progress cbn
    | match goal with
      | |- context [fst (?srv ?c ?s)] => answer srv c s
      | |- context [match ?x with _ => _ end] =>
          lazymatch x with
          | context [run] => fail
          | _ => destruct x eqn:?
          end
      | |- context [if ?x then _ else _] =>
          lazymatch x with
          | context [run] => fail
          | _ => destruct x eqn:?
          end
      end ].

(** Membership in a log that has been computed. *)
Ltac in_log H :=
  repeat (apply elem_of_cons in H as [H|H];
          [first [solve [inversion H] | inversion H; subst; try clear H]|]);
  try (apply elem_of_nil in H; destruct H).

(** * Properties

    Where a statement fixes what the server lists, the script runs with
    [HAS_INFLUXDB] true: without the client library it fails before any
    call (see [library_missing]).  "The user exists" reads "the list the
    server returns has a user of that name", the first such user being
    the one the scripts look at. *)

(** ** The loops *)

Lemma first_user_Some users name u :
  first_user users name = Some u -> u ∈ users /\ u_user u = name.
Proof.
  induction users as [|v users IH]; simpl; [discriminate|].
  destruct (String.eqb_spec (u_user v) name) as [Heq|Hne].
  - intros [= ->]. split; [left | exact Heq].
  - intros H. destruct (IH H) as [Hin Hn]. split; [right; exact Hin | exact Hn].
Qed.

Lemma first_user_None users name :
  first_user users name = None <-> (forall u, u ∈ users -> u_user u <> name).
Proof.
  induction users as [|v users IH]; simpl.
  - split; [intros _ u Hu; inversion Hu | reflexivity].
  - destruct (String.eqb_spec (u_user v) name) as [Heq|Hne].
    + split; [discriminate|]. intros H. exfalso. apply (H v); [left | exact Heq].
    + rewrite IH. split.
      * intros H u Hu. apply elem_of_cons in Hu as [->|Hu]; [exact Hne | exact (H u Hu)].
      * intros H u Hu. apply H. right. exact Hu.
Qed.

Lemma privilege_map_lookup (k : string) (v : option string) :
  influxdb_privs.privilege_map !! k = Some v <->
  (k = "READ" /\ v = Some "read") \/ (k = "WRITE" /\ v = Some "write") \/
  (k = "ALL PRIVILEGES" /\ v = Some "all") \/ (k = "NO PRIVILEGES" /\ v = None).
Proof.
  unfold influxdb_privs.privilege_map.
  rewrite !lookup_insert_Some, lookup_empty. intuition congruence.
Qed.

Lemma privilege_map_names (k privilege : string) :
  influxdb_privs.privilege_map !! k = Some (Some privilege) <->
  (k = "READ" /\ privilege = "read") \/ (k = "WRITE" /\ privilege = "write") \/
  (k = "ALL PRIVILEGES" /\ privilege = "all").
Proof. rewrite privilege_map_lookup. intuition congruence. Qed.

(** One turn of the loop of [find_grant]: the grant is returned exactly
    when it counts for the request. *)
Lemma first_grant_hit g grants database privilege :
  grant_matches database privilege g ->
  influxdb_privs.first_grant (g :: grants) database privilege = Some g.
Proof.
  intros [Hdb Hlevel]. apply privilege_map_names in Hlevel. simpl.
  rewrite (proj2 (String.eqb_eq _ _) Hdb). simpl.
  rewrite bool_decide_eq_true_2 by (rewrite Hlevel; eauto). simpl.
  rewrite lookup_total_alt, Hlevel. simpl.
  rewrite bool_decide_eq_true_2 by reflexivity. reflexivity.
Qed.

Lemma first_grant_miss g grants database privilege :
  ~ grant_matches database privilege g ->
  influxdb_privs.first_grant (g :: grants) database privilege =
  influxdb_privs.first_grant grants database privilege.
Proof.
  intros Hno. simpl.
  destruct (String.eqb_spec (g_database g) database) as [Hdb|Hdb]; simpl; [|reflexivity].
  destruct (influxdb_privs.privilege_map !! g_privilege g) as [level|] eqn:Hlevel.
  - rewrite bool_decide_eq_true_2 by eauto. simpl.
    rewrite lookup_total_alt, Hlevel. simpl.
    rewrite bool_decide_eq_false_2; [reflexivity|].
    intros ->. apply Hno. split; [exact Hdb|]. apply privilege_map_names, Hlevel.
  - rewrite bool_decide_eq_false_2; [reflexivity|].
    intros [? ?]. discriminate.
Qed.

Lemma grant_matches_dec database privilege g :
  grant_matches database privilege g \/ ~ grant_matches database privilege g.
Proof.
  unfold grant_matches.
  destruct (decide (g_database g = database)); [|right; tauto].
  destruct (decide (g_privilege g = "READ" /\ privilege = "read")); [left; tauto|].
  destruct (decide (g_privilege g = "WRITE" /\ privilege = "write")); [left; tauto|].
  destruct (decide (g_privilege g = "ALL PRIVILEGES" /\ privilege = "all")); [left; tauto|].
  right; tauto.
Qed.

Lemma first_grant_Some grants database privilege g :
  influxdb_privs.first_grant grants database privilege = Some g ->
  g ∈ grants /\ grant_matches database privilege g.
Proof.
  induction grants as [|g' grants IH]; [discriminate|].
  destruct (grant_matches_dec database privilege g') as [Hyes|Hno].
  - rewrite (first_grant_hit _ _ _ _ Hyes). intros [= ->]. split; [left | exact Hyes].
  - rewrite (first_grant_miss _ _ _ _ Hno). intros H.
    destruct (IH H) as [Hin Hm]. split; [right; exact Hin | exact Hm].
Qed.

Lemma first_grant_None grants database privilege :
  influxdb_privs.first_grant grants database privilege = None <->
  (forall g, g ∈ grants -> ~ grant_matches database privilege g).
Proof.
  induction grants as [|g' grants IH].
  - split; [intros _ g Hg; inversion Hg | reflexivity].
  - destruct (grant_matches_dec database privilege g') as [Hyes|Hno].
    + rewrite (first_grant_hit _ _ _ _ Hyes). split; [discriminate|].
      intros H. exfalso. apply (H g'); [left | exact Hyes].
    + rewrite (first_grant_miss _ _ _ _ Hno), IH. split.
      * intros H g Hg. apply elem_of_cons in Hg as [->|Hg]; [exact Hno | exact (H g Hg)].
      * intros H g Hg. apply H. right. exact Hg.
Qed.

Lemma first_grant_is_Some grants database privilege :
  is_Some (influxdb_privs.first_grant grants database privilege) <->
  (exists g, g ∈ grants /\ grant_matches database privilege g).
Proof.
  split.
  - intros [g Hg]. exists g. exact (first_grant_Some _ _ _ _ Hg).
  - intros [g [Hin Hm]].
    destruct (influxdb_privs.first_grant grants database privilege) as [g'|] eqn:E; [eauto|].
    exfalso. exact (proj1 (first_grant_None _ _ _) E g Hin Hm).
Qed.

(** Grants whose privilege string is no key of the dictionary might as
    well not be listed. *)
Lemma first_grant_unrecognised grants database privilege :
  influxdb_privs.first_grant
    (List.filter (fun g => bool_decide (is_Some (influxdb_privs.privilege_map !! g_privilege g)))
                 grants) database privilege =
  influxdb_privs.first_grant grants database privilege.
Proof.
  induction grants as [|g grants IH]; [reflexivity|].
  cbn [List.filter].
  destruct (influxdb_privs.privilege_map !! g_privilege g) as [level|] eqn:Hlevel.
  - rewrite bool_decide_eq_true_2 by eauto.
    destruct (grant_matches_dec database privilege g) as [Hyes|Hno].
    + rewrite !(first_grant_hit _ _ _ _ Hyes). reflexivity.
    + rewrite !(first_grant_miss _ _ _ _ Hno). exact IH.
  - rewrite bool_decide_eq_false_2 by (intros [? ?]; discriminate).
    rewrite first_grant_miss; [exact IH|].
    intros [_ Hm]. apply privilege_map_names in Hm. congruence.
Qed.

(** ** Running programs *)

Lemma run_bind {S A B : Type} (srv : server S) (p : prog A) (f : A -> prog B) (s : S) :
  run srv (p ≫= f) s =
  match outcome (run srv p s) with
  | Returns a =>
      let e' := run srv (f a) (after (run srv p s)) in
      mkExecution (log (run srv p s) ++ log e') (after e') (outcome e')
  | Raises x => mkExecution (log (run srv p s)) (after (run srv p s)) (Raises x)
  | Exits j => mkExecution (log (run srv p s)) (after (run srv p s)) (Exits j)
  end.
Proof.
  revert s. induction p as [[a|x|j]|c k IH]; intros s; cbn.
  - destruct (run srv (f a) s); reflexivity.
  - reflexivity.
  - reflexivity.
  - change (prog_bind f (k (fst (srv c s)))) with (k (fst (srv c s)) ≫= f).
    rewrite IH. destruct (outcome (run srv (k (fst (srv c s))) (snd (srv c s)))); reflexivity.
Qed.

(** Once the process has exited, nothing that follows runs. *)
Lemma run_bind_exits {S A B : Type} (srv : server S) (p : prog A) (f : A -> prog B) (s : S) j :
  outcome (run srv p s) = Exits j ->
  outcome (run srv (p ≫= f) s) = Exits j /\ log (run srv (p ≫= f) s) = log (run srv p s).
Proof. intros H. rewrite run_bind, H. split; reflexivity. Qed.

Lemma mutation_last_spec (t : list call) :
  mutation_last t = true ->
  forall t1 c t2, t = (t1 ++ c :: t2)%list -> mutating c = true -> t2 = [].
Proof.
  induction t as [|d t IH]; intros Hlast t1 c t2 Heq Hc.
  - destruct t1; discriminate.
  - destruct t1 as [|d' t1]; simpl in Heq; injection Heq as -> ->; simpl in Hlast.
    + rewrite Hc in Hlast. apply bool_decide_eq_true_1 in Hlast. exact Hlast.
    + destruct (mutating d').
      * apply bool_decide_eq_true_1 in Hlast. destruct t1; discriminate.
      * exact (IH Hlast t1 c t2 eq_refl Hc).
Qed.

(** The user lookup of either script: one listing call, whose transport
    failure ends the process. *)
Lemma run_find_user {S : Type} (srv : server S) (s : S) module client name :
  run srv (influxdb_user.find_user module client name) s =
  mkExecution
    [(InfluxDBClient.get_list_users, raised (fst (srv InfluxDBClient.get_list_users s)))]
    (snd (srv InfluxDBClient.get_list_users s))
    match fst (srv InfluxDBClient.get_list_users s) with
    | inl users => Returns (first_user users name)
    | inr (ConnectionError text) => Exits (Failed text)
    | inr e => Raises e
    end.
Proof.
  unfold_scripts. cbn.
  destruct (srv InfluxDBClient.get_list_users s) as [[users|[text|content]] s']; reflexivity.
Qed.

Lemma run_privs_find_user {S : Type} (srv : server S) (s : S) module client name :
  run srv (influxdb_privs.find_user module client name) s =
  mkExecution
    [(InfluxDBClient.get_list_users, raised (fst (srv InfluxDBClient.get_list_users s)))]
    (snd (srv InfluxDBClient.get_list_users s))
    match fst (srv InfluxDBClient.get_list_users s) with
    | inl users => Returns (first_user users name)
    | inr (ConnectionError text) => Exits (Failed text)
    | inr e => Raises e
    end.
Proof.
  unfold_scripts. cbn.
  destruct (srv InfluxDBClient.get_list_users s) as [[users|[text|content]] s']; reflexivity.
Qed.

(** ** At most one mutation *)

(** C9.  Whatever the server answers, whatever the parameters and the
    mode, a run of either script makes at most one mutating call, and a
    mutating call is the last call of the run: none is repeated, none is
    followed by another call, on the paths that end in a fatal error or in
    an uncaught exception as on the others. *)
Theorem at_most_one_mutation {S : Type} (srv : server S) (s : S) (HAS_INFLUXDB : bool)
    (m_user : influxdb_user.AnsibleModule) (m_privs : influxdb_privs.AnsibleModule) :
  let e_user := run srv (influxdb_user.main HAS_INFLUXDB m_user) s in
  let e_privs := run srv (influxdb_privs.main HAS_INFLUXDB m_privs) s in
  (length (mutations (trace e_user)) <= 1 /\
   forall t1 c t2, trace e_user = (t1 ++ c :: t2)%list -> mutating c = true -> t2 = []) /\
  (length (mutations (trace e_privs)) <= 1 /\
   forall t1 c t2, trace e_privs = (t1 ++ c :: t2)%list -> mutating c = true -> t2 = []).
Proof.
  cbn zeta. split; split.
  - unfold_scripts. split_run; lia.
  - apply mutation_last_spec. unfold_scripts. split_run; reflexivity.
  - unfold_scripts. split_run; lia.
  - apply mutation_last_spec. unfold_scripts. split_run; reflexivity.
Qed.

(** ** Error paths *)

(** Each operation belongs to exactly one of the two classes. *)
Lemma operation_classes_partition (c : call) :
  transport_class c = negb (rejection_class c).
Proof. destruct c; reflexivity. Qed.

(** ** The grant lookup *)

(** C8.  On a listed user whose grants the server returns, [find_grant]
    returns normally, and what it returns is a grant exactly when some
    listed grant is on the requested database with a privilege string
    among ['READ'], ['WRITE'] and ['ALL PRIVILEGES'] that names the
    requested level; the grant returned is such a grant of the list; a
    grant whose privilege string is no key of the dictionary is never the
    one returned, and leaving such grants out of the list changes
    nothing. *)
Theorem grant_lookup_spec {S : Type} (srv : server S) (s s' s'' : S)
    (module : influxdb_privs.AnsibleModule) (client : InfluxDBClient.t)
    (privilege database username : string)
    (users : list User) (u : User) (grants : list Grant) :
  srv InfluxDBClient.get_list_users s = (inl users, s') ->
  first_user users username = Some u ->
  srv (InfluxDBClient.get_list_grants username) s' = (inl grants, s'') ->
  exists found,
    outcome (run srv (influxdb_privs.find_grant module client privilege database username) s)
      = Returns found /\
    (is_Some found <-> exists g, g ∈ grants /\ grant_matches database privilege g) /\
    (forall g, found = Some g -> g ∈ grants /\ grant_matches database privilege g) /\
    (forall g, influxdb_privs.privilege_map !! g_privilege g = None -> found <> Some g) /\
    found = influxdb_privs.first_grant
              (List.filter (fun g => bool_decide (is_Some (influxdb_privs.privilege_map
                                                             !! g_privilege g))) grants)
              database privilege.
Proof.
  intros Hlist Huser Hgrants.
  exists (influxdb_privs.first_grant grants database privilege).
  split; [|split; [|split; [|split]]].
  - unfold_scripts. cbn. rewrite Hlist. cbn. rewrite Huser. cbn.
    rewrite Hgrants. reflexivity.
  - apply first_grant_is_Some.
  - apply first_grant_Some.
  - intros g Hkey Hfound. apply first_grant_Some in Hfound as [_ [_ Hm]].
    apply privilege_map_names in Hm. congruence.
  - symmetry. apply first_grant_unrecognised.
Qed.

Lemma grant_lookup_spec_witness :
  exists found,
    outcome (run Server.step
               (influxdb_privs.find_grant (todd_privs "all" "present" false)
                  (influxdb_privs.connect_to_influxdb (todd_privs "all" "present" false))
                  "all" "NOAA_water_database" "todd")
               todd_all_server) = Returns found /\
    (is_Some found <->
       exists g, g ∈ Server.grants_of todd_all_server "todd" /\
                 grant_matches "NOAA_water_database" "all" g) /\
    (forall g, found = Some g ->
       g ∈ Server.grants_of todd_all_server "todd" /\
       grant_matches "NOAA_water_database" "all" g) /\
    (forall g, influxdb_privs.privilege_map !! g_privilege g = None -> found <> Some g) /\
    found = influxdb_privs.first_grant
              (List.filter (fun g => bool_decide (is_Some (influxdb_privs.privilege_map
                                                             !! g_privilege g)))
                 (Server.grants_of todd_all_server "todd"))
              "NOAA_water_database" "all".
Proof.
  apply (grant_lookup_spec Server.step todd_all_server todd_all_server todd_all_server _ _
           "all" "NOAA_water_database" "todd" [mkUser "todd" false] (mkUser "todd" false)
           (Server.grants_of todd_all_server "todd"));
    reflexivity.
Defined.

(** ** The user module *)

(** C10.  With [state=present] and the user of the requested name in the
    list the server returns, two invocations that differ only in the
    password run identically (same calls, same answers, same result), and
    no call of the run is handed the password. *)
Theorem user_present_ignores_password {S : Type} (srv : server S) (s s' : S)
    (HAS_INFLUXDB check_mode : bool) (p : influxdb_user.Params)
    (password1 password2 : string) (users : list User) (u : User) :
  influxdb_user.state p = "present" ->
  srv InfluxDBClient.get_list_users s = (inl users, s') ->
  first_user users (influxdb_user.name p) = Some u ->
  let e1 := run srv (influxdb_user.main HAS_INFLUXDB
                       (influxdb_user.mkModule (with_password p password1) check_mode)) s in
  let e2 := run srv (influxdb_user.main HAS_INFLUXDB
                       (influxdb_user.mkModule (with_password p password2) check_mode)) s in
  e1 = e2 /\ forall c, c ∈ trace e1 -> InfluxDBClient.transmits_password c = false.
Proof.
  intros Hstate Hlist Huser. cbn zeta. unfold_scripts. cbn. rewrite Hstate. cbn.
  destruct HAS_INFLUXDB; cbn.
  - rewrite Hlist. cbn. rewrite Huser. cbn.
    split; [reflexivity|].
    split_run; intros c Hc; in_log Hc; subst; reflexivity.
  - split; [reflexivity|]. intros c Hc. inversion Hc.
Qed.

Lemma user_present_ignores_password_witness :
  run Server.step (influxdb_user.main true (todd true "present" false)) todd_server =
  run Server.step
    (influxdb_user.main true
       (influxdb_user.mkModule
          (with_password (influxdb_user.params (todd true "present" false)) "other") false))
    todd_server.
Proof.
  apply (user_present_ignores_password Server.step todd_server todd_server true false
           (influxdb_user.params (todd true "present" false)) "secret" "other"
           [mkUser "todd" false] (mkUser "todd" false)); reflexivity.
Defined.

(** C4.  With [state=present] and no user of the requested name in the
    list the server returns, whatever the requested [admin]: every
    create-user call of the run carries [admin=False]; outside a dry run
    the run is the listing followed by that one call; and on the reference
    server the user it leaves behind is no administrator. *)
Theorem create_ignores_admin {S : Type} (srv : server S) (s s' : S)
    (module : influxdb_user.AnsibleModule) (users : list User) (sv : Server.t) :
  let p := influxdb_user.params module in
  influxdb_user.state p = "present" ->
  srv InfluxDBClient.get_list_users s = (inl users, s') ->
  first_user users (influxdb_user.name p) = None ->
  let e := run srv (influxdb_user.main true module) s in
  (forall name password admin,
     InfluxDBClient.create_user name password admin ∈ trace e -> admin = false) /\
  (influxdb_user.check_mode module = false ->
     trace e = [InfluxDBClient.get_list_users;
                InfluxDBClient.create_user (influxdb_user.name p) (influxdb_user.password p)
                  false]) /\
  (influxdb_user.check_mode module = false ->
     first_user (Server.users sv) (influxdb_user.name p) = None ->
     Server.users (after (run Server.step (influxdb_user.main true module) sv)) =
     (Server.users sv ++ [mkUser (influxdb_user.name p) false])%list).
Proof.
  intros p Hstate Hlist Hmissing e. subst p e. split; [|split].
  - unfold_scripts. cbn. rewrite Hstate, Hlist. cbn. rewrite Hmissing. cbn.
    split_run; intros name password admin Hin; in_log Hin; congruence.
  - intros Hmode. unfold_scripts. cbn. rewrite Hstate, Hlist. cbn.
    rewrite Hmissing, Hmode. split_run; reflexivity.
  - intros Hmode Hsv. unfold_scripts. cbn. rewrite Hstate. cbn.
    rewrite Hsv, Hmode. cbn.
    assert (Server.has_user sv (influxdb_user.name (influxdb_user.params module)) = false)
      as Hno.
    { unfold Server.has_user. apply not_true_is_false. intros Hex.
      apply existsb_exists in Hex as [v [Hv Heq]].
      apply String.eqb_eq in Heq.
      apply (proj1 (first_user_None _ _) Hsv v); [apply list_elem_of_In; exact Hv | exact Heq]. }
    rewrite Hno. reflexivity.
Qed.

Lemma create_ignores_admin_witness :
  trace (run Server.step (influxdb_user.main true (todd true "present" false)) Server.empty) =
    [InfluxDBClient.get_list_users; InfluxDBClient.create_user "todd" "secret" false] /\
  Server.users
    (after (run Server.step (influxdb_user.main true (todd true "present" false)) Server.empty)) =
    [mkUser "todd" false].
Proof.
  destruct (create_ignores_admin Server.step Server.empty Server.empty
              (todd true "present" false) [] Server.empty eq_refl eq_refl eq_refl)
    as (_ & Htrace & Hleft).
  split; [exact (Htrace eq_refl) | exact (Hleft eq_refl eq_refl)].
Defined.

(** The table of the user module does not hold of every invocation: in a
    dry run on a server without the user, [state=present] issues no
    create-user call; and a drop the server rejects ends in a fatal error,
    not in [changed=true]. *)
Lemma user_table_fails :
  ~ user_table Server.step Server.empty (todd false "present" true) /\
  ~ user_table Server.read_only todd_server (todd false "absent" false).
Proof.
  split; intros Htable.
  - destruct (Htable [] Server.empty eq_refl) as (_ & _ & Hcreate & _).
    destruct (Hcreate eq_refl eq_refl) as [a [Hcalls _]].
    vm_compute in Hcalls. discriminate Hcalls.
  - destruct (Htable [mkUser "todd" false] todd_server eq_refl) as (_ & _ & _ & Hdrop & _).
    destruct (Hdrop eq_refl (mkUser "todd" false) eq_refl) as [_ Hout].
    vm_compute in Hout. discriminate Hout.
Qed.

(** C1, amended.  Outside a dry run, when the server returns its list of
    users: with [state=present] and the user listed with the requested
    admin flag, no mutating call is made and [changed=false] is reported;
    with [state=present] and the user listed with the other flag, the one
    mutating call is the admin grant (for [admin=true]) or revoke (for
    [admin=false]); with [state=present] and the user not listed, the one
    mutating call is a create-user call; with [state=absent] and the user
    listed, the one mutating call is the drop-user call; with
    [state=absent] and the user not listed, no mutating call is made and
    [changed=false] is reported.  In the three rows with a mutating call,
    [changed=true] is reported when that call returns. *)
Theorem user_table_outside_dry_run {S : Type} (srv : server S) (s s' : S)
    (module : influxdb_user.AnsibleModule) (users : list User) :
  influxdb_user.check_mode module = false ->
  srv InfluxDBClient.get_list_users s = (inl users, s') ->
  let p := influxdb_user.params module in
  let e := run srv (influxdb_user.main true module) s in
  let found := first_user users (influxdb_user.name p) in
  (influxdb_user.state p = "present" ->
     forall u, found = Some u -> u_admin u = influxdb_user.admin p ->
     reports e [] false) /\
  (influxdb_user.state p = "present" ->
     forall u, found = Some u -> u_admin u <> influxdb_user.admin p ->
     applies e (toggle_admin (influxdb_user.name p) (influxdb_user.admin p))) /\
  (influxdb_user.state p = "present" -> found = None ->
     exists a, applies e (InfluxDBClient.create_user (influxdb_user.name p)
                            (influxdb_user.password p) a)) /\
  (influxdb_user.state p = "absent" ->
     forall u, found = Some u ->
     applies e (InfluxDBClient.drop_user (influxdb_user.name p))) /\
  (influxdb_user.state p = "absent" -> found = None -> reports e [] false).
Proof.
  intros Hmode Hlist p e found. subst p e found.
  unfold reports, applies, toggle_admin.
  split; [|split; [|split; [|split]]].
  - intros Hstate u Hfound Hadmin. unfold_scripts. cbn.
    rewrite Hstate, Hlist. cbn. rewrite Hfound. cbn.
    rewrite Hadmin, Bool.eqb_reflx. cbn. split; reflexivity.
  - intros Hstate u Hfound Hadmin. unfold_scripts. cbn.
    rewrite Hstate, Hlist. cbn. rewrite Hfound. cbn.
    rewrite (proj2 (Bool.eqb_false_iff _ _) Hadmin), Hmode.
    destruct (influxdb_user.admin (influxdb_user.params module));
      split_run; (split; [reflexivity|]); intros Hin; in_log Hin; reflexivity.
  - intros Hstate Hfound. exists false. unfold_scripts. cbn.
    rewrite Hstate, Hlist. cbn. rewrite Hfound, Hmode.
    split_run; (split; [reflexivity|]); intros Hin; in_log Hin; reflexivity.
  - intros Hstate u Hfound. unfold_scripts. cbn.
    rewrite Hstate, Hlist. cbn. rewrite Hfound, Hmode.
    split_run; (split; [reflexivity|]); intros Hin; in_log Hin; reflexivity.
  - intros Hstate Hfound. unfold_scripts. cbn.
    rewrite Hstate, Hlist. cbn. rewrite Hfound. cbn. split; reflexivity.
Qed.

Lemma user_table_outside_dry_run_witness :
  applies (run Server.step (influxdb_user.main true (todd false "absent" false)) todd_server)
    (InfluxDBClient.drop_user "todd").
Proof.
  destruct (user_table_outside_dry_run Server.step todd_server todd_server
              (todd false "absent" false) [mkUser "todd" false] eq_refl eq_refl)
    as (_ & _ & _ & Hdrop & _).
  exact (Hdrop eq_refl (mkUser "todd" false) eq_refl).
Defined.

(** ** The privilege module *)

(** The table of the privilege module does not hold of every invocation
    on an existing user: a dry run with [state=present] and no grant
    issues no grant-privilege call; and a revoke the server rejects ends
    in a fatal error, not in [changed=true]. *)
Lemma privs_table_fails :
  ~ privs_table Server.step todd_server (todd_privs "all" "present" true) /\
  ~ privs_table Server.read_only todd_all_server (todd_privs "all" "absent" false).
Proof.
  split; intros Htable.
  - destruct (Htable [mkUser "todd" false] todd_server (mkUser "todd" false) [] todd_server
                eq_refl eq_refl eq_refl) as (_ & Hgrant & _).
    destruct (Hgrant eq_refl) as [Hcalls _].
    + intros g Hg. inversion Hg.
    + vm_compute in Hcalls. discriminate Hcalls.
  - destruct (Htable [mkUser "todd" false] todd_all_server (mkUser "todd" false)
                (Server.grants_of todd_all_server "todd") todd_all_server
                eq_refl eq_refl eq_refl) as (_ & _ & Hrevoke & _).
    destruct (Hrevoke eq_refl) as [_ Hout].
    + exists (mkGrant "NOAA_water_database" "ALL PRIVILEGES"). split.
      * vm_compute. repeat constructor.
      * split; [reflexivity|]. right; right. split; reflexivity.
    + vm_compute in Hout. discriminate Hout.
Qed.

(** C2, amended.  Outside a dry run, on a user the server lists and whose
    grants it returns: with [state=present] and a grant on the requested
    database whose privilege names the requested level, no mutating call
    is made and [changed=false] is reported; with [state=present] and no
    such grant, the one mutating call is the grant-privilege call with
    (privilege, database, username); with [state=absent] and such a grant,
    the one mutating call is the revoke-privilege call; with
    [state=absent] and no such grant, no mutating call is made and
    [changed=false] is reported.  In the two rows with a mutating call,
    [changed=true] is reported when that call returns. *)
Theorem privs_table_outside_dry_run {S : Type} (srv : server S) (s s' s'' : S)
    (module : influxdb_privs.AnsibleModule) (users : list User) (u : User)
    (grants : list Grant) :
  influxdb_privs.check_mode module = false ->
  srv InfluxDBClient.get_list_users s = (inl users, s') ->
  first_user users (influxdb_privs.username (influxdb_privs.params module)) = Some u ->
  srv (InfluxDBClient.get_list_grants (influxdb_privs.username (influxdb_privs.params module))) s'
    = (inl grants, s'') ->
  let p := influxdb_privs.params module in
  let e := run srv (influxdb_privs.main true module) s in
  let wanted := grant_matches (influxdb_privs.database p) (influxdb_privs.privilege p) in
  (influxdb_privs.state p = "present" -> (exists g, g ∈ grants /\ wanted g) ->
     reports e [] false) /\
  (influxdb_privs.state p = "present" -> (forall g, g ∈ grants -> ~ wanted g) ->
     applies e (InfluxDBClient.grant_privilege (influxdb_privs.privilege p)
                  (influxdb_privs.database p) (influxdb_privs.username p))) /\
  (influxdb_privs.state p = "absent" -> (exists g, g ∈ grants /\ wanted g) ->
     applies e (InfluxDBClient.revoke_privilege (influxdb_privs.privilege p)
                  (influxdb_privs.database p) (influxdb_privs.username p))) /\
  (influxdb_privs.state p = "absent" -> (forall g, g ∈ grants -> ~ wanted g) ->
     reports e [] false).
Proof.
  intros Hmode Hlist Huser Hgrants p e wanted. subst p e wanted.
  unfold reports, applies.
  split; [|split; [|split]].
  - intros Hstate Hsome. apply first_grant_is_Some in Hsome as [g Hg].
    unfold_scripts. cbn. rewrite Hstate, Hlist. cbn. rewrite Huser. cbn.
    rewrite Hgrants. cbn. rewrite Hg. cbn. split; reflexivity.
  - intros Hstate Hnone. apply first_grant_None in Hnone.
    unfold_scripts. cbn. rewrite Hstate, Hlist. cbn. rewrite Huser. cbn.
    rewrite Hgrants. cbn. rewrite Hnone, Hmode.
    split_run; (split; [reflexivity|]); intros Hin; in_log Hin; reflexivity.
  - intros Hstate Hsome. apply first_grant_is_Some in Hsome as [g Hg].
    unfold_scripts. cbn. rewrite Hstate, Hlist. cbn. rewrite Huser. cbn.
    rewrite Hgrants. cbn. rewrite Hg, Hmode.
    split_run; (split; [reflexivity|]); intros Hin; in_log Hin; reflexivity.
  - intros Hstate Hnone. apply first_grant_None in Hnone.
    unfold_scripts. cbn. rewrite Hstate, Hlist. cbn. rewrite Huser. cbn.
    rewrite Hgrants. cbn. rewrite Hnone. cbn. split; reflexivity.
Qed.

(** The example of the documentation: granting [all] on
    [NOAA_water_database] to [todd], who holds nothing yet. *)
Lemma privs_table_outside_dry_run_witness :
  applies (run Server.step (influxdb_privs.main true (todd_privs "all" "present" false))
             todd_server)
    (InfluxDBClient.grant_privilege "all" "NOAA_water_database" "todd").
Proof.
  destruct (privs_table_outside_dry_run Server.step todd_server todd_server todd_server
              (todd_privs "all" "present" false) [mkUser "todd" false] (mkUser "todd" false) []
              eq_refl eq_refl eq_refl eq_refl) as (_ & Hgrant & _).
  apply (Hgrant eq_refl). intros g Hg. inversion Hg.
Defined.

(** ** Applying an invocation twice on the reference server *)

Lemma has_user_first_user sv name :
  Server.has_user sv name =
  match first_user (Server.users sv) name with Some _ => true | None => false end.
Proof.
  unfold Server.has_user. induction (Server.users sv) as [|v us IH]; simpl.
  - reflexivity.
  - destruct (String.eqb (u_user v) name); [reflexivity | exact IH].
Qed.

Lemma first_user_app_new us name admin :
  first_user us name = None ->
  first_user (us ++ [mkUser name admin]) name = Some (mkUser name admin).
Proof.
  induction us as [|v us IH]; simpl.
  - intros _. rewrite String.eqb_refl. reflexivity.
  - destruct (String.eqb (u_user v) name); [discriminate | exact IH].
Qed.

Lemma first_user_set_admin us name admin u :
  first_user us name = Some u ->
  first_user (Server.set_admin name admin us) name = Some (mkUser (u_user u) admin).
Proof.
  induction us as [|v us IH]; simpl; [discriminate|].
  destruct (String.eqb (u_user v) name) eqn:Hv; simpl.
  - intros [= ->]. rewrite Hv. reflexivity.
  - rewrite Hv. exact IH.
Qed.

Lemma first_user_remove us name :
  first_user (Server.remove_user name us) name = None.
Proof.
  induction us as [|v us IH]; simpl; [reflexivity|].
  destruct (String.eqb (u_user v) name) eqn:Hv; simpl; [exact IH|].
  rewrite Hv. exact IH.
Qed.

Lemma elem_of_grants_of sv username g :
  g ∈ Server.grants_of sv username <->
  Server.grants sv !! (username, g_database g) = Some (g_privilege g).
Proof.
  unfold Server.grants_of. rewrite list_elem_of_omap. split.
  - intros [[[u' db] pr] [Hin Heq]]. apply elem_of_map_to_list in Hin. simpl in Heq.
    destruct (String.eqb_spec u' username) as [->|]; [|discriminate].
    injection Heq as <-. exact Hin.
  - intros H. exists (username, g_database g, g_privilege g). split.
    + apply elem_of_map_to_list. exact H.
    + simpl. rewrite String.eqb_refl. destruct g; reflexivity.
Qed.

Lemma level_of_matches privilege level database :
  Server.level_of privilege = Some level ->
  grant_matches database privilege (mkGrant database level).
Proof.
  unfold Server.level_of, grant_matches. simpl.
  destruct (String.eqb_spec privilege "read") as [->|_]; [intros [= <-]; tauto|].
  destruct (String.eqb_spec privilege "write") as [->|_]; [intros [= <-]; tauto|].
  destruct (String.eqb_spec privilege "all") as [->|_]; [intros [= <-]; tauto|].
  discriminate.
Qed.

Lemma matches_level_of privilege level database g :
  grant_matches database privilege g ->
  Server.level_of privilege = Some level ->
  g_privilege g = level.
Proof.
  intros [_ [[-> ->]|[[-> ->]|[-> ->]]]]; vm_compute; congruence.
Qed.

Lemma remaining_same privilege level :
  Server.level_of privilege = Some level ->
  Server.remaining level level = "NO PRIVILEGES".
Proof.
  intros _. unfold Server.remaining. rewrite String.eqb_refl.
  destruct (String.eqb level "ALL PRIVILEGES"); reflexivity.
Qed.

(** C3.  On the reference server, outside a dry run: when [state=present]
    and [admin=true] are requested for a user the server does not have,
    the first application creates the user with [admin=False] and reports
    [changed=true]; the second application of the same input to the
    server the first one left finds that user without the admin flag,
    grants it, and reports [changed=true] again. *)
Theorem create_then_grant_admin (sv : Server.t) (p : influxdb_user.Params) :
  influxdb_user.state p = "present" ->
  influxdb_user.admin p = true ->
  first_user (Server.users sv) (influxdb_user.name p) = None ->
  let module := influxdb_user.mkModule p false in
  let first := run Server.step (influxdb_user.main true module) sv in
  let second := run Server.step (influxdb_user.main true module) (after first) in
  trace first = [InfluxDBClient.get_list_users;
                 InfluxDBClient.create_user (influxdb_user.name p) (influxdb_user.password p)
                   false] /\
  changed_flag (outcome first) = Some true /\
  trace second = [InfluxDBClient.get_list_users;
                  InfluxDBClient.grant_admin_privileges (influxdb_user.name p)] /\
  changed_flag (outcome second) = Some true.
Proof.
  intros Hstate Hadmin Hmissing module first second.
  assert (Hfirst : first =
            mkExecution
              [(InfluxDBClient.get_list_users, None);
               (InfluxDBClient.create_user (influxdb_user.name p) (influxdb_user.password p)
                  false, None)]
              (Server.mk (Server.users sv ++ [mkUser (influxdb_user.name p) false])
                         (Server.grants sv))
              (Exits (Changed true))).
  { subst first module. unfold_scripts. cbn. rewrite Hstate. cbn. rewrite Hmissing. cbn.
    rewrite has_user_first_user, Hmissing. reflexivity. }
  subst second. rewrite Hfirst. cbn [after].
  split; [reflexivity|]. split; [reflexivity|].
  remember (Server.mk (Server.users sv ++ [mkUser (influxdb_user.name p) false])
                      (Server.grants sv)) as sv' eqn:Hsv'.
  assert (Hcreated : first_user (Server.users sv') (influxdb_user.name p)
                     = Some (mkUser (influxdb_user.name p) false)).
  { subst sv'. exact (first_user_app_new _ _ false Hmissing). }
  subst module. unfold_scripts. cbn. rewrite Hstate, Hadmin. cbn.
  rewrite Hcreated. cbn. rewrite has_user_first_user, Hcreated.
  split; reflexivity.
Qed.

Lemma create_then_grant_admin_witness :
  let first := run Server.step (influxdb_user.main true (todd true "present" false))
                 Server.empty in
  let second := run Server.step (influxdb_user.main true (todd true "present" false))
                  (after first) in
  changed_flag (outcome first) = Some true /\ changed_flag (outcome second) = Some true.
Proof.
  destruct (create_then_grant_admin Server.empty
              (influxdb_user.params (todd true "present" false)) eq_refl eq_refl eq_refl)
    as (_ & Hfirst & _ & Hsecond).
  split; [exact Hfirst | exact Hsecond].
Defined.

(** Everywhere else the user module settles in one application: outside
    a dry run, unless a missing user is requested as administrator, an
    application that reported [changed=true] is followed by one that
    reports [changed=false]. *)
Lemma user_second_run_unchanged (sv : Server.t) (p : influxdb_user.Params) :
  ~ (influxdb_user.state p = "present" /\ influxdb_user.admin p = true /\
     first_user (Server.users sv) (influxdb_user.name p) = None) ->
  let module := influxdb_user.mkModule p false in
  let first := run Server.step (influxdb_user.main true module) sv in
  let second := run Server.step (influxdb_user.main true module) (after first) in
  changed_flag (outcome first) = Some true ->
  changed_flag (outcome second) = Some false.
Proof.
  intros Hnot module first second. subst module first second.
  unfold_scripts. cbn.
  destruct (first_user (Server.users sv) (influxdb_user.name p)) as [u|] eqn:Hu; cbn;
    destruct (String.eqb_spec (influxdb_user.state p) "present") as [Hpresent|_]; cbn.
  - (* the user is listed *)
    destruct (Bool.eqb (u_admin u) (influxdb_user.admin p)) eqn:Hflag; cbn; [discriminate|].
    destruct (influxdb_user.admin p) eqn:Hadmin; cbn;
      rewrite has_user_first_user, Hu; cbn;
      rewrite (first_user_set_admin _ _ _ _ Hu); cbn; reflexivity.
  - destruct (String.eqb_spec (influxdb_user.state p) "absent") as [Habsent|_]; cbn;
      [|discriminate].
    rewrite has_user_first_user, Hu. cbn. rewrite first_user_remove. cbn.
    reflexivity.
  - (* the user is not listed *)
    destruct (influxdb_user.admin p) eqn:Hadmin; [exfalso; apply Hnot; auto|].
    rewrite has_user_first_user, Hu. cbn.
    rewrite (first_user_app_new _ _ false Hu). cbn. reflexivity.
  - destruct (String.eqb (influxdb_user.state p) "absent"); cbn; discriminate.
Qed.

(** The privilege module settles in one application: outside a dry run,
    an application that reported [changed=true] is followed by one that
    reports [changed=false]. *)
Lemma privs_second_run_unchanged (sv : Server.t) (p : influxdb_privs.Params) :
  let module := influxdb_privs.mkModule p false in
  let first := run Server.step (influxdb_privs.main true module) sv in
  let second := run Server.step (influxdb_privs.main true module) (after first) in
  changed_flag (outcome first) = Some true ->
  changed_flag (outcome second) = Some false.
Proof.
  intros module first second. subst module first second.
  unfold_scripts. cbn.
  destruct (first_user (Server.users sv) (influxdb_privs.username p)) as [u|] eqn:Hu; cbn;
    [|discriminate].
  rewrite has_user_first_user, Hu. cbn.
  destruct (influxdb_privs.first_grant (Server.grants_of sv (influxdb_privs.username p))
              (influxdb_privs.database p) (influxdb_privs.privilege p)) as [g|] eqn:Hg; cbn;
    destruct (String.eqb_spec (influxdb_privs.state p) "present") as [Hpresent|_]; cbn.
  - discriminate.
  - (* a grant is held and [state=absent]: it is revoked *)
    destruct (String.eqb_spec (influxdb_privs.state p) "absent") as [Habsent|_]; cbn;
      [|discriminate].
    destruct (Server.level_of (influxdb_privs.privilege p)) as [level|] eqn:Hlevel; cbn;
      [|discriminate].
    rewrite has_user_first_user, Hu. cbn. rewrite Hu. cbn.
    rewrite has_user_first_user. cbn. rewrite Hu. cbn.
    apply first_grant_Some in Hg as [Hin Hm].
    apply elem_of_grants_of in Hin.
    pose proof (matches_level_of _ _ _ _ Hm Hlevel) as Hheld.
    destruct Hm as [Hdb Hnames]. rewrite Hdb, Hheld in Hin. rewrite Hin. cbn.
    rewrite (remaining_same _ _ Hlevel).
    match goal with
    | |- context [influxdb_privs.first_grant ?l ?d ?q] =>
        assert (influxdb_privs.first_grant l d q = None) as ->
    end.
    { apply first_grant_None. intros g' Hin' [Hdb' Hnames'].
      apply elem_of_grants_of in Hin'. cbn in Hin'.
      rewrite Hdb', lookup_insert_eq in Hin'. injection Hin' as Hno.
      rewrite <- Hno in Hnames'.
      destruct Hnames' as [[? _]|[[? _]|[? _]]]; discriminate. }
    cbn. reflexivity.
  - (* no grant is held and [state=present]: it is granted *)
    destruct (Server.level_of (influxdb_privs.privilege p)) as [level|] eqn:Hlevel; cbn;
      [|discriminate].
    rewrite has_user_first_user, Hu. cbn. rewrite Hu. cbn.
    rewrite has_user_first_user. cbn. rewrite Hu. cbn.
    match goal with
    | |- context [influxdb_privs.first_grant ?l ?d ?q] =>
        destruct (proj2 (first_grant_is_Some l d q)) as [g' ->]
    end.
    { exists (mkGrant (influxdb_privs.database p) level). split.
      - apply elem_of_grants_of. cbn. apply lookup_insert_eq.
      - apply level_of_matches. exact Hlevel. }
    cbn. reflexivity.
  - destruct (String.eqb (influxdb_privs.state p) "absent"); cbn; discriminate.
Qed.

(** ** The examples of the documentation *)

(** What the reference server lists for ["todd"] once the grants of
    [todd_all_server] are in place. *)
Example todd_grants_listed :
  Server.grants_of todd_all_server "todd" ≡ₚ
  [mkGrant "NOAA_water_database" "ALL PRIVILEGES"; mkGrant "telegraf" "OWNER"].
Proof. vm_compute. first [reflexivity | apply perm_swap]. Qed.

(** Granting [all] to a user who already holds it: no call beyond the two
    listings, [changed=false]. *)
Example grant_all_already_held :
  let e := run Server.step (influxdb_privs.main true (todd_privs "all" "present" false))
             todd_all_server in
  log e = [(InfluxDBClient.get_list_users, None);
           (InfluxDBClient.get_list_grants "todd", None)] /\
  outcome e = Exits (Changed false).
Proof. split; reflexivity. Qed.

(** Revoking [write] from a user who holds [all]: the grant held does not
    name the requested level, so nothing is revoked. *)
Example revoke_write_from_all :
  let e := run Server.step (influxdb_privs.main true (todd_privs "write" "absent" false))
             todd_all_server in
  mutations (trace e) = [] /\ outcome e = Exits (Changed false).
Proof. split; reflexivity. Qed.

(** An unreadable privilege string on the requested database is passed
    over. *)
Example unrecognised_privilege_skipped :
  influxdb_privs.first_grant
    [mkGrant "telegraf" "OWNER"; mkGrant "telegraf" "NO PRIVILEGES"; mkGrant "telegraf" "READ"]
    "telegraf" "read" = Some (mkGrant "telegraf" "READ").
Proof. reflexivity. Qed.

(** Without the client library nothing is called. *)
Example library_missing :
  run Server.step (influxdb_user.main false (todd false "present" false)) Server.empty =
  mkExecution [] Server.empty
    (Exits (Failed "influxdb python package is required for this module")).
Proof. reflexivity. Qed.

(** * Further properties of the two scripts *)

(** ** Exceptions the scripts do not catch *)

(** In every run of either script, an exception of the class its
    operation does not catch is not turned into a fatal message: an
    [InfluxDBClientError] raised by a listing call, by [create_user] or by
    [grant_privilege], and a [ConnectionError] raised by [drop_user], by
    the admin grant or revoke or by [revoke_privilege], leave the script
    as they are. *)
Theorem other_errors_escape {S : Type} (srv : server S) (s : S) (HAS_INFLUXDB : bool)
    (m_user : influxdb_user.AnsibleModule) (m_privs : influxdb_privs.AnsibleModule) :
  escapes (run srv (influxdb_user.main HAS_INFLUXDB m_user) s) /\
  escapes (run srv (influxdb_privs.main HAS_INFLUXDB m_privs) s).
Proof.
  unfold escapes. split; intros c x; unfold_scripts;
    split_run; intros Hin; in_log Hin;
    (split; intros ? Hclass Hx; first [discriminate | congruence]).
Qed.

Lemma other_errors_escape_witness :
  outcome (run Server.read_only (influxdb_privs.main true (todd_privs "all" "present" false))
             todd_server)
  = Raises (InfluxDBClientError "error authorizing query") /\
  outcome (run Server.unreachable (influxdb_user.main true (todd false "absent" false))
             todd_server)
  = Exits (Failed "Connection refused").
Proof.
  pose proof (other_errors_escape Server.read_only todd_server true
                (todd false "absent" false) (todd_privs "all" "present" false)) as [_ Hprivs].
  split.
  - apply (proj1 (Hprivs (InfluxDBClient.grant_privilege "all" "NOAA_water_database" "todd")
                         (InfluxDBClientError "error authorizing query")
                         ltac:(vm_compute; right; right; left))
                 "error authorizing query"); reflexivity.
  - reflexivity.
Defined.

Lemma error_last_spec (l : list event) :
  error_last l = true ->
  forall l1 c x l2, l = (l1 ++ (c, Some x) :: l2)%list -> l2 = [].
Proof.
  induction l as [|[d r] l IH]; intros Hlast l1 c x l2 Heq.
  - destruct l1; discriminate.
  - destruct l1 as [|d' l1]; simpl in Heq; simplify_eq; simpl in Hlast.
    + apply bool_decide_eq_true_1 in Hlast. exact Hlast.
    + destruct r as [y|].
      * apply bool_decide_eq_true_1 in Hlast. destruct l1; discriminate.
      * exact (IH Hlast l1 c x l2 eq_refl).
Qed.

(** In every run of either script, a call that raises is the last call:
    whether the exception is caught or not, nothing is asked of the server
    after it. *)
Theorem nothing_after_an_error {S : Type} (srv : server S) (s : S) (HAS_INFLUXDB : bool)
    (m_user : influxdb_user.AnsibleModule) (m_privs : influxdb_privs.AnsibleModule) :
  (forall l1 c x l2,
     log (run srv (influxdb_user.main HAS_INFLUXDB m_user) s) = (l1 ++ (c, Some x) :: l2)%list ->
     l2 = []) /\
  (forall l1 c x l2,
     log (run srv (influxdb_privs.main HAS_INFLUXDB m_privs) s) = (l1 ++ (c, Some x) :: l2)%list ->
     l2 = []).
Proof.
  split; apply error_last_spec; unfold_scripts; split_run; reflexivity.
Qed.

Lemma nothing_after_an_error_witness :
  log (run Server.unreachable (influxdb_privs.main true (todd_privs "all" "present" false))
         todd_server)
  = ([] ++ [(InfluxDBClient.get_list_users, Some (ConnectionError "Connection refused"))])%list /\
  @nil event = [].
Proof.
  split; [reflexivity|].
  apply (proj2 (nothing_after_an_error Server.unreachable todd_server true
                  (todd false "absent" false) (todd_privs "all" "present" false))
           [] InfluxDBClient.get_list_users (ConnectionError "Connection refused") []).
  reflexivity.
Defined.

(** ** What a run reports *)

(** With [state] one of its two choices, a run of either script never
    falls off the end of [main]: it ends by [exit_json], by [fail_json] or
    by an exception. *)
Theorem main_never_returns {S : Type} (srv : server S) (s : S) (HAS_INFLUXDB : bool)
    (m_user : influxdb_user.AnsibleModule) (m_privs : influxdb_privs.AnsibleModule) :
  (influxdb_user.state (influxdb_user.params m_user) = "present" \/
   influxdb_user.state (influxdb_user.params m_user) = "absent" ->
   outcome (run srv (influxdb_user.main HAS_INFLUXDB m_user) s) <> Returns tt) /\
  (influxdb_privs.state (influxdb_privs.params m_privs) = "present" \/
   influxdb_privs.state (influxdb_privs.params m_privs) = "absent" ->
   outcome (run srv (influxdb_privs.main HAS_INFLUXDB m_privs) s) <> Returns tt).
Proof.
  split; (intros [Hstate|Hstate]; unfold_scripts; cbn; rewrite Hstate; split_run; discriminate).
Qed.

Lemma main_never_returns_witness :
  outcome (run Server.step (influxdb_user.main true (todd false "absent" false)) Server.empty)
  <> Returns tt.
Proof.
  apply (proj1 (main_never_returns Server.step Server.empty true
                  (todd false "absent" false) (todd_privs "all" "present" false))).
  right. reflexivity.
Defined.

(** The flag says what was done, in every run of either script:
    [changed=false] is reported only when no mutating call was made, and
    outside a dry run [changed=true] is reported only when one mutating
    call was made and returned. *)
Theorem changed_flag_sound {S : Type} (srv : server S) (s : S) (HAS_INFLUXDB : bool)
    (m_user : influxdb_user.AnsibleModule) (m_privs : influxdb_privs.AnsibleModule) :
  flag_sound (influxdb_user.check_mode m_user)
    (run srv (influxdb_user.main HAS_INFLUXDB m_user) s) /\
  flag_sound (influxdb_privs.check_mode m_privs)
    (run srv (influxdb_privs.main HAS_INFLUXDB m_privs) s).
Proof.
  unfold flag_sound. split; split.
  - unfold_scripts. split_run; first [reflexivity | discriminate].
  - intros Hmode. unfold_scripts. rewrite Hmode.
    split_run; intros Hout; try discriminate Hout;
      eexists; (split; [reflexivity|]); right; left.
  - unfold_scripts. split_run; first [reflexivity | discriminate].
  - intros Hmode. unfold_scripts. rewrite Hmode.
    split_run; intros Hout; try discriminate Hout;
      eexists; (split; [reflexivity|]); right; right; left.
Qed.

Lemma changed_flag_sound_witness :
  exists c,
    mutations (trace (run Server.step (influxdb_user.main true (todd false "present" false))
                        Server.empty)) = [c] /\
    (c, None) ∈ log (run Server.step (influxdb_user.main true (todd false "present" false))
                       Server.empty).
Proof.
  apply (proj2 (proj1 (changed_flag_sound Server.step Server.empty true
                         (todd false "present" false) (todd_privs "all" "present" false))));
    reflexivity.
Defined.

(** ** What the calls are about *)

(** Every call of a run of the user module is one of the five user
    operations and, when it names a user, names the requested one: the
    script never reads or changes grants, and never touches another
    user. *)
Theorem user_calls_on_target {S : Type} (srv : server S) (s : S) (HAS_INFLUXDB : bool)
    (module : influxdb_user.AnsibleModule) (c : call) :
  c ∈ trace (run srv (influxdb_user.main HAS_INFLUXDB module) s) ->
  user_operation c = true /\
  (call_username c = None \/
   call_username c = Some (influxdb_user.name (influxdb_user.params module))).
Proof.
  unfold_scripts. split_run; intros Hin; in_log Hin; subst; cbn; auto.
Qed.

Lemma user_calls_on_target_witness :
  user_operation (InfluxDBClient.drop_user "todd") = true /\
  (call_username (InfluxDBClient.drop_user "todd") = None \/
   call_username (InfluxDBClient.drop_user "todd") = Some "todd").
Proof.
  apply (user_calls_on_target Server.step todd_server true (todd false "absent" false)).
  vm_compute. right; left.
Defined.

(** Every call of a run of the privilege module is one of the four
    privilege operations; when it names a user it names the requested one,
    and when it names a privilege and a database they are the requested
    ones: the script never creates, drops or promotes a user, and never
    touches another user or database. *)
Theorem privs_calls_on_target {S : Type} (srv : server S) (s : S) (HAS_INFLUXDB : bool)
    (module : influxdb_privs.AnsibleModule) (c : call) :
  c ∈ trace (run srv (influxdb_privs.main HAS_INFLUXDB module) s) ->
  let p := influxdb_privs.params module in
  privs_operation c = true /\
  (call_username c = None \/ call_username c = Some (influxdb_privs.username p)) /\
  (call_grant c = None \/
   call_grant c = Some (influxdb_privs.privilege p, influxdb_privs.database p)).
Proof.
  unfold_scripts. split_run; intros Hin; in_log Hin; subst; cbn; auto.
Qed.

Lemma privs_calls_on_target_witness :
  let c := InfluxDBClient.grant_privilege "all" "NOAA_water_database" "todd" in
  privs_operation c = true /\
  (call_username c = None \/ call_username c = Some "todd") /\
  (call_grant c = None \/ call_grant c = Some ("all", "NOAA_water_database")).
Proof.
  apply (privs_calls_on_target Server.step todd_server true (todd_privs "all" "present" false)).
  vm_compute. right; right; left.
Defined.

(** The password of the user travels in one situation only: a call that
    is handed a password is the create-user call for the requested name
    with the requested password, made outside a dry run with
    [state=present].  With [state=absent], or in a dry run, the password
    is never sent. *)
Theorem password_sent_only_on_create {S : Type} (srv : server S) (s : S) (HAS_INFLUXDB : bool)
    (module : influxdb_user.AnsibleModule) (c : call) :
  c ∈ trace (run srv (influxdb_user.main HAS_INFLUXDB module) s) ->
  InfluxDBClient.transmits_password c = true ->
  let p := influxdb_user.params module in
  c = InfluxDBClient.create_user (influxdb_user.name p) (influxdb_user.password p) false /\
  influxdb_user.state p = "present" /\
  influxdb_user.check_mode module = false.
Proof.
  unfold_scripts.
  destruct (String.eqb_spec (influxdb_user.state (influxdb_user.params module)) "present")
    as [Hpresent|Hother];
    destruct (influxdb_user.check_mode module);
    split_run; intros Hin Hpw; in_log Hin; subst; try discriminate Hpw; auto.
Qed.

Lemma password_sent_only_on_create_witness :
  InfluxDBClient.create_user "todd" "secret" false
    = InfluxDBClient.create_user "todd" "secret" false /\
  influxdb_user.state (influxdb_user.params (todd true "present" false)) = "present" /\
  influxdb_user.check_mode (todd true "present" false) = false.
Proof.
  apply (password_sent_only_on_create Server.step Server.empty true (todd true "present" false)
           (InfluxDBClient.create_user "todd" "secret" false)).
  - vm_compute. right; left.
  - reflexivity.
Defined.


(** Reads come before the write: a run of the user module that makes a
    mutating call has first listed the users, successfully, and made no
    other call; a run of the privilege module that makes one has first
    listed the users and then the grants of the requested user, both
    successfully, and made no other call. *)
Theorem reads_before_write {S : Type} (srv : server S) (s : S) (HAS_INFLUXDB : bool)
    (m_user : influxdb_user.AnsibleModule) (m_privs : influxdb_privs.AnsibleModule) (c : call) :
  (mutations (trace (run srv (influxdb_user.main HAS_INFLUXDB m_user) s)) = [c] ->
   exists r, log (run srv (influxdb_user.main HAS_INFLUXDB m_user) s) =
             [(InfluxDBClient.get_list_users, None); (c, r)]) /\
  (mutations (trace (run srv (influxdb_privs.main HAS_INFLUXDB m_privs) s)) = [c] ->
   exists r, log (run srv (influxdb_privs.main HAS_INFLUXDB m_privs) s) =
             [(InfluxDBClient.get_list_users, None);
              (InfluxDBClient.get_list_grants
                 (influxdb_privs.username (influxdb_privs.params m_privs)), None);
              (c, r)]).
Proof.
  split; unfold_scripts; split_run; intros Hm; try discriminate Hm;
    injection Hm as <-; eexists; reflexivity.
Qed.

Lemma reads_before_write_witness :
  exists r,
    log (run Server.step (influxdb_privs.main true (todd_privs "all" "present" false))
           todd_server) =
    [(InfluxDBClient.get_list_users, None); (InfluxDBClient.get_list_grants "todd", None);
     (InfluxDBClient.grant_privilege "all" "NOAA_water_database" "todd", r)].
Proof.
  apply (proj2 (reads_before_write Server.step todd_server true
                  (todd false "absent" false) (todd_privs "all" "present" false)
                  (InfluxDBClient.grant_privilege "all" "NOAA_water_database" "todd"))).
  reflexivity.
Defined.

(** ** The two lookups return the first match *)

Lemma first_user_split users name u :
  first_user users name = Some u <->
  exists before rest,
    users = (before ++ u :: rest)%list /\ u_user u = name /\
    forall v, v ∈ before -> u_user v <> name.
Proof.
  split.
  - revert u. induction users as [|v users IH]; intros u; simpl; [discriminate|].
    destruct (String.eqb_spec (u_user v) name) as [Heq|Hne].
    + intros [= ->]. exists [], users. split; [reflexivity|]. split; [exact Heq|].
      intros w Hw. inversion Hw.
    + intros H. destruct (IH u H) as (before & rest & -> & Hu & Hbefore).
      exists (v :: before), rest. split; [reflexivity|]. split; [exact Hu|].
      intros w Hw. apply elem_of_cons in Hw as [->|Hw]; [exact Hne | exact (Hbefore w Hw)].
  - intros (before & rest & -> & Hu & Hbefore).
    induction before as [|v before IH]; simpl.
    + rewrite (proj2 (String.eqb_eq _ _) Hu). reflexivity.
    + rewrite (proj2 (String.eqb_neq _ _) (Hbefore v ltac:(left))).
      apply IH. intros w Hw. apply Hbefore. right. exact Hw.
Qed.

(** On a server that returns its users, [find_user] (of either script)
    makes the one listing call and returns the first listed user whose
    name is exactly the requested one: a user listed earlier under another
    name, or later under the same name, is not the one returned; and it
    returns nothing exactly when no listed user has that name. *)
Theorem user_lookup_first {S : Type} (srv : server S) (s s' : S)
    (m_user : influxdb_user.AnsibleModule) (m_privs : influxdb_privs.AnsibleModule)
    (client : InfluxDBClient.t) (name : string) (users : list User) :
  srv InfluxDBClient.get_list_users s = (inl users, s') ->
  exists found,
    run srv (influxdb_user.find_user m_user client name) s =
      mkExecution [(InfluxDBClient.get_list_users, None)] s' (Returns found) /\
    run srv (influxdb_privs.find_user m_privs client name) s =
      mkExecution [(InfluxDBClient.get_list_users, None)] s' (Returns found) /\
    (forall u, found = Some u <->
       exists before rest,
         users = (before ++ u :: rest)%list /\ u_user u = name /\
         forall v, v ∈ before -> u_user v <> name) /\
    (found = None <-> forall v, v ∈ users -> u_user v <> name).
Proof.
  intros Hlist. exists (first_user users name).
  split; [|split; [|split]].
  - rewrite run_find_user, Hlist. reflexivity.
  - rewrite run_privs_find_user, Hlist. reflexivity.
  - intros u. apply first_user_split.
  - apply first_user_None.
Qed.

Lemma user_lookup_first_witness :
  exists found,
    run Server.step (influxdb_user.find_user (todd false "present" false)
                       (influxdb_user.connect_to_influxdb (todd false "present" false)) "todd")
        todd_server =
      mkExecution [(InfluxDBClient.get_list_users, None)] todd_server (Returns found) /\
    run Server.step (influxdb_privs.find_user (todd_privs "all" "present" false)
                       (influxdb_user.connect_to_influxdb (todd false "present" false)) "todd")
        todd_server =
      mkExecution [(InfluxDBClient.get_list_users, None)] todd_server (Returns found) /\
    (forall u, found = Some u <->
       exists before rest,
         [mkUser "todd" false] = (before ++ u :: rest)%list /\ u_user u = "todd" /\
         forall v, v ∈ before -> u_user v <> "todd") /\
    (found = None <-> forall v, v ∈ [mkUser "todd" false] -> u_user v <> "todd").
Proof.
  apply (user_lookup_first Server.step todd_server todd_server _ _ _ "todd"
           [mkUser "todd" false]).
  reflexivity.
Defined.

(** The loop of [find_grant] returns the first listed grant that counts
    for the request: every grant listed before the one returned is on
    another database, or carries a privilege string that does not name the
    requested level. *)
Theorem grant_lookup_first (grants : list Grant) (database privilege : string) (g : Grant) :
  influxdb_privs.first_grant grants database privilege = Some g <->
  exists before rest,
    grants = (before ++ g :: rest)%list /\ grant_matches database privilege g /\
    forall g', g' ∈ before -> ~ grant_matches database privilege g'.
Proof.
  split.
  - revert g. induction grants as [|h grants IH]; intros g; [discriminate|].
    destruct (grant_matches_dec database privilege h) as [Hyes|Hno].
    + rewrite (first_grant_hit _ _ _ _ Hyes). intros [= ->].
      exists [], grants. split; [reflexivity|]. split; [exact Hyes|].
      intros g' Hg'. inversion Hg'.
    + rewrite (first_grant_miss _ _ _ _ Hno). intros H.
      destruct (IH g H) as (before & rest & -> & Hg & Hbefore).
      exists (h :: before), rest. split; [reflexivity|]. split; [exact Hg|].
      intros g' Hg'. apply elem_of_cons in Hg' as [->|Hg']; [exact Hno | exact (Hbefore g' Hg')].
  - intros (before & rest & -> & Hg & Hbefore).
    induction before as [|h before IH].
    + exact (first_grant_hit _ _ _ _ Hg).
    + change ((h :: before) ++ g :: rest)%list with (h :: (before ++ g :: rest))%list.
      rewrite first_grant_miss by (apply Hbefore; left).
      apply IH. intros g' Hg'. apply Hbefore. right. exact Hg'.
Qed.

(** ** On the reference server: what a run leaves behind *)

Lemma first_user_app_other us name other admin :
  other <> name ->
  first_user (us ++ [mkUser name admin]) other = first_user us other.
Proof.
  intros Hne. induction us as [|v us IH]; simpl.
  - rewrite (proj2 (String.eqb_neq _ _)); [reflexivity | congruence].
  - destruct (String.eqb (u_user v) other); [reflexivity | exact IH].
Qed.

Lemma first_user_set_admin_other us name other admin :
  other <> name ->
  first_user (Server.set_admin name admin us) other = first_user us other.
Proof.
  intros Hne. induction us as [|v us IH]; simpl; [reflexivity|].
  destruct (String.eqb_spec (u_user v) name) as [Hv|Hv]; simpl.
  - rewrite Hv, (proj2 (String.eqb_neq _ _)); [exact IH | congruence].
  - destruct (String.eqb (u_user v) other); [reflexivity | exact IH].
Qed.

Lemma first_user_remove_other us name other :
  other <> name ->
  first_user (Server.remove_user name us) other = first_user us other.
Proof.
  intros Hne. induction us as [|v us IH]; simpl; [reflexivity|].
  destruct (String.eqb_spec (u_user v) name) as [Hv|Hv]; simpl.
  - rewrite Hv, (proj2 (String.eqb_neq _ _)); [exact IH | congruence].
  - destruct (String.eqb (u_user v) other); [reflexivity | exact IH].
Qed.

Lemma grants_filter_other (grants : gmap (string * string) string) name other database :
  other <> name ->
  filter (fun kv : string * string * string => fst (fst kv) ≠ name) grants !! (other, database)
  = grants !! (other, database).
Proof.
  intros Hne. rewrite map_lookup_filter.
  destruct (grants !! (other, database)); simpl; [|reflexivity].
  rewrite option_guard_True; [reflexivity | exact Hne].
Qed.

(** Whatever the user module is asked, in whatever mode, every other user
    of the reference server is left as listed before, with the same
    grants. *)
Theorem user_leaves_others (sv : Server.t) (HAS_INFLUXDB : bool)
    (module : influxdb_user.AnsibleModule) (other database : string) :
  other <> influxdb_user.name (influxdb_user.params module) ->
  let e := run Server.step (influxdb_user.main HAS_INFLUXDB module) sv in
  first_user (Server.users (after e)) other = first_user (Server.users sv) other /\
  Server.grants (after e) !! (other, database) = Server.grants sv !! (other, database).
Proof.
  intros Hne. cbn zeta. unfold_scripts.
  repeat first [progress simplify_eq/= | progress split_run];
    rewrite ?first_user_app_other, ?first_user_set_admin_other, ?first_user_remove_other,
            ?grants_filter_other by exact Hne;
    split; reflexivity.
Qed.

Lemma user_leaves_others_witness :
  first_user
    (Server.users (after (run Server.step (influxdb_user.main true (todd false "absent" false))
                            todd_all_server))) "root"
  = first_user (Server.users todd_all_server) "root" /\
  Server.grants (after (run Server.step (influxdb_user.main true (todd false "absent" false))
                          todd_all_server)) !! ("root", "telegraf")
  = Server.grants todd_all_server !! ("root", "telegraf").
Proof.
  apply (user_leaves_others todd_all_server true (todd false "absent" false) "root" "telegraf").
  discriminate.
Defined.

(** Whatever the privilege module is asked, in whatever mode, the users of
    the reference server are left as they were, and so is every grant but
    the one of the requested user on the requested database. *)
Theorem privs_leaves_others (sv : Server.t) (HAS_INFLUXDB : bool)
    (module : influxdb_privs.AnsibleModule) (key : string * string) :
  key <> (influxdb_privs.username (influxdb_privs.params module),
          influxdb_privs.database (influxdb_privs.params module)) ->
  let e := run Server.step (influxdb_privs.main HAS_INFLUXDB module) sv in
  Server.users (after e) = Server.users sv /\
  Server.grants (after e) !! key = Server.grants sv !! key.
Proof.
  intros Hne. cbn zeta. unfold_scripts.
  repeat first [progress simplify_eq/= | progress split_run];
    rewrite ?lookup_insert_ne by congruence; split; reflexivity.
Qed.

Lemma privs_leaves_others_witness :
  Server.users (after (run Server.step (influxdb_privs.main true (todd_privs "all" "absent" false))
                         todd_all_server))
  = Server.users todd_all_server /\
  Server.grants (after (run Server.step (influxdb_privs.main true (todd_privs "all" "absent" false))
                          todd_all_server)) !! ("todd", "telegraf")
  = Server.grants todd_all_server !! ("todd", "telegraf").
Proof.
  apply (privs_leaves_others todd_all_server true (todd_privs "all" "absent" false)
           ("todd", "telegraf")).
  discriminate.
Defined.

(** A dry run of either script, and a run that reports [changed=false],
    leave the reference server exactly as it was. *)
Theorem server_untouched (sv : Server.t) (HAS_INFLUXDB : bool)
    (m_user : influxdb_user.AnsibleModule) (m_privs : influxdb_privs.AnsibleModule) :
  let e_user := run Server.step (influxdb_user.main HAS_INFLUXDB m_user) sv in
  let e_privs := run Server.step (influxdb_privs.main HAS_INFLUXDB m_privs) sv in
  (influxdb_user.check_mode m_user = true \/ outcome e_user = Exits (Changed false) ->
   after e_user = sv) /\
  (influxdb_privs.check_mode m_privs = true \/ outcome e_privs = Exits (Changed false) ->
   after e_privs = sv).
Proof.
  cbn zeta. split; unfold_scripts;
    (destruct (influxdb_user.check_mode m_user) eqn:Hu || idtac);
    (destruct (influxdb_privs.check_mode m_privs) eqn:Hp || idtac);
    repeat first [progress simplify_eq/= | progress split_run];
    intros [Hmode|Hout]; first [reflexivity | discriminate].
Qed.

Lemma server_untouched_witness :
  after (run Server.step (influxdb_user.main true (todd true "present" true)) Server.empty)
  = Server.empty.
Proof.
  apply (proj1 (server_untouched Server.empty true (todd true "present" true)
                  (todd_privs "all" "present" true))).
  left. reflexivity.
Defined.

Lemma user_second_run_unchanged_witness :
  changed_flag
    (outcome
       (run Server.step (influxdb_user.main true (todd false "present" false))
          (after (run Server.step (influxdb_user.main true (todd false "present" false))
                    Server.empty))))
  = Some false.
Proof.
  apply (user_second_run_unchanged Server.empty
           (influxdb_user.params (todd false "present" false))).
  - intros (_ & Hadmin & _). discriminate Hadmin.
  - reflexivity.
Defined.

Lemma privs_second_run_unchanged_witness :
  changed_flag
    (outcome
       (run Server.step (influxdb_privs.main true (todd_privs "all" "present" false))
          (after (run Server.step (influxdb_privs.main true (todd_privs "all" "present" false))
                    todd_server))))
  = Some false.
Proof.
  apply (privs_second_run_unchanged todd_server
           (influxdb_privs.params (todd_privs "all" "present" false))).
  reflexivity.
Defined.

(** Outside a dry run, a run of the user module that reports a [changed]
    flag leaves the reference server in the requested state as far as the
    presence of the user goes: with [state=absent] the user is not listed
    afterwards; with [state=present] it is, with the requested admin flag
    if it was listed before, and without the admin flag if this run
    created it. *)
Theorem user_reaches_state (sv : Server.t) (p : influxdb_user.Params) (b : bool) :
  let e := run Server.step (influxdb_user.main true (influxdb_user.mkModule p false)) sv in
  let before := first_user (Server.users sv) (influxdb_user.name p) in
  let listed := first_user (Server.users (after e)) (influxdb_user.name p) in
  outcome e = Exits (Changed b) ->
  (influxdb_user.state p = "absent" -> listed = None) /\
  (influxdb_user.state p = "present" ->
     exists u, listed = Some u /\
       (is_Some before -> u_admin u = influxdb_user.admin p) /\
       (before = None -> u_admin u = false)).
Proof.
  cbn zeta. unfold_scripts. cbn.
  destruct (first_user (Server.users sv) (influxdb_user.name p)) as [u|] eqn:Hu; cbn;
    destruct (String.eqb_spec (influxdb_user.state p) "present") as [Hpresent|Hother]; cbn.
  - (* listed, [state=present] *)
    destruct (Bool.eqb (u_admin u) (influxdb_user.admin p)) eqn:Hflag; cbn.
    + intros _. split; [rewrite Hpresent; discriminate|]. intros _.
      rewrite Hu. exists u. split; [reflexivity|]. split; [|discriminate].
      intros _. apply Bool.eqb_prop. exact Hflag.
    + destruct (influxdb_user.admin p) eqn:Hadmin; cbn;
        rewrite has_user_first_user, Hu; cbn; intros _;
        (split; [rewrite Hpresent; discriminate|]); intros _;
        rewrite (first_user_set_admin _ _ _ _ Hu);
        eexists; (split; [reflexivity|]); (split; [reflexivity | discriminate]).
  - (* listed, another state *)
    destruct (String.eqb_spec (influxdb_user.state p) "absent") as [Habsent|_]; cbn;
      [|discriminate].
    rewrite has_user_first_user, Hu. cbn. intros _.
    split; [|contradiction]. intros _. apply first_user_remove.
  - (* not listed, [state=present] *)
    rewrite has_user_first_user, Hu. cbn. intros _.
    split; [rewrite Hpresent; discriminate|]. intros _.
    rewrite (first_user_app_new _ _ false Hu).
    eexists. split; [reflexivity|]. split; [intros [? ?]; discriminate | reflexivity].
  - (* not listed, another state *)
    destruct (String.eqb_spec (influxdb_user.state p) "absent") as [Habsent|_]; cbn;
      [|discriminate].
    intros _. split; [|contradiction]. intros _. exact Hu.
Qed.

Lemma user_reaches_state_witness :
  first_user
    (Server.users (after (run Server.step (influxdb_user.main true (todd false "absent" false))
                            todd_server))) "todd" = None.
Proof.
  apply (proj1 (user_reaches_state todd_server
                  (influxdb_user.params (todd false "absent" false)) true eq_refl)).
  reflexivity.
Defined.

Lemma matches_has_level database privilege g :
  grant_matches database privilege g ->
  Server.level_of privilege = Some (g_privilege g).
Proof.
  intros [_ [[-> ->]|[[-> ->]|[-> ->]]]]; reflexivity.
Qed.

Lemma level_of_not_none privilege level :
  Server.level_of privilege = Some level -> level <> "NO PRIVILEGES".
Proof.
  unfold Server.level_of.
  destruct (String.eqb privilege "read"); [intros [= <-]; discriminate|].
  destruct (String.eqb privilege "write"); [intros [= <-]; discriminate|].
  destruct (String.eqb privilege "all"); [intros [= <-]; discriminate|].
  discriminate.
Qed.

(** Outside a dry run, a run of the privilege module that reports a
    [changed] flag leaves the reference server in the requested state:
    with [state=present] the requested user holds exactly the requested
    level on the requested database afterwards; with [state=absent] it
    does not hold that level there. *)
Theorem privs_reaches_state (sv : Server.t) (p : influxdb_privs.Params) (b : bool) :
  let e := run Server.step (influxdb_privs.main true (influxdb_privs.mkModule p false)) sv in
  let held := Server.grants (after e)
                !! (influxdb_privs.username p, influxdb_privs.database p) in
  outcome e = Exits (Changed b) ->
  (influxdb_privs.state p = "present" ->
     exists level, Server.level_of (influxdb_privs.privilege p) = Some level /\
                   held = Some level) /\
  (influxdb_privs.state p = "absent" ->
     forall level, Server.level_of (influxdb_privs.privilege p) = Some level ->
                   held <> Some level).
Proof.
  cbn zeta. unfold_scripts. cbn.
  destruct (first_user (Server.users sv) (influxdb_privs.username p)) as [u|] eqn:Hu; cbn;
    [|discriminate].
  rewrite has_user_first_user, Hu. cbn.
  destruct (influxdb_privs.first_grant (Server.grants_of sv (influxdb_privs.username p))
              (influxdb_privs.database p) (influxdb_privs.privilege p)) as [g|] eqn:Hg; cbn;
    destruct (String.eqb_spec (influxdb_privs.state p) "present") as [Hpresent|Hother]; cbn.
  - (* held, [state=present] *)
    intros _. split; [|rewrite Hpresent; discriminate]. intros _.
    apply first_grant_Some in Hg as [Hin Hm]. apply elem_of_grants_of in Hin.
    exists (g_privilege g). split; [exact (matches_has_level _ _ _ Hm)|].
    destruct Hm as [Hdb _]. rewrite <- Hdb. exact Hin.
  - (* held, another state *)
    destruct (String.eqb_spec (influxdb_privs.state p) "absent") as [Habsent|_]; cbn;
      [|discriminate].
    destruct (Server.level_of (influxdb_privs.privilege p)) as [level|] eqn:Hlevel; cbn;
      [|discriminate].
    rewrite has_user_first_user, Hu. cbn. intros _.
    split; [contradiction|]. intros _ level' [= <-].
    rewrite lookup_insert_eq.
    apply first_grant_Some in Hg as [Hin Hm]. apply elem_of_grants_of in Hin.
    pose proof (matches_level_of _ _ _ _ Hm Hlevel) as Hheld.
    destruct Hm as [Hdb _]. rewrite Hdb, Hheld in Hin. rewrite Hin. cbn.
    rewrite (remaining_same _ _ Hlevel). intros [= Hno].
    exact (level_of_not_none _ _ Hlevel (eq_sym Hno)).
  - (* not held, [state=present] *)
    destruct (Server.level_of (influxdb_privs.privilege p)) as [level|] eqn:Hlevel; cbn;
      [|discriminate].
    rewrite has_user_first_user, Hu. cbn. intros _.
    split; [|rewrite Hpresent; discriminate]. intros _.
    exists level. split; [reflexivity | apply lookup_insert_eq].
  - (* not held, another state *)
    destruct (String.eqb_spec (influxdb_privs.state p) "absent") as [Habsent|_]; cbn;
      [|discriminate].
    intros _. split; [contradiction|]. intros _ level Hlevel Hheld.
    apply (proj1 (first_grant_None _ _ _) Hg (mkGrant (influxdb_privs.database p) level)).
    + apply elem_of_grants_of. exact Hheld.
    + apply level_of_matches. exact Hlevel.
Qed.

Lemma privs_reaches_state_witness :
  exists level, Server.level_of "all" = Some level /\
    Server.grants
      (after (run Server.step (influxdb_privs.main true (todd_privs "all" "present" false))
                todd_server)) !! ("todd", "NOAA_water_database") = Some level.
Proof.
  apply (proj1 (privs_reaches_state todd_server
                  (influxdb_privs.params (todd_privs "all" "present" false)) true eq_refl)).
  reflexivity.
Defined.

(** ** What a removal depends on *)

(** With [state=absent] the run of the user module depends on the name
    alone: two invocations in the same mode that agree on the name run
    identically against the same server, whatever their passwords and
    admin flags. *)
Theorem user_absent_needs_name_only {S : Type} (srv : server S) (s : S)
    (HAS_INFLUXDB check_mode : bool) (p1 p2 : influxdb_user.Params) :
  influxdb_user.state p1 = "absent" ->
  influxdb_user.state p2 = "absent" ->
  influxdb_user.name p1 = influxdb_user.name p2 ->
  run srv (influxdb_user.main HAS_INFLUXDB (influxdb_user.mkModule p1 check_mode)) s =
  run srv (influxdb_user.main HAS_INFLUXDB (influxdb_user.mkModule p2 check_mode)) s.
Proof.
  intros Hstate1 Hstate2 Hname. unfold_scripts. cbn.
  rewrite Hstate1, Hstate2, Hname. split_run; reflexivity.
Qed.

Lemma user_absent_needs_name_only_witness :
  run Server.step (influxdb_user.main true (todd false "absent" false)) todd_server =
  run Server.step
    (influxdb_user.main true
       (influxdb_user.mkModule
          (influxdb_user.mkParams "localhost" 8086 "root" "root"
             "todd" "other" true "absent") false))
    todd_server.
Proof.
  apply (user_absent_needs_name_only Server.step todd_server true false
           (influxdb_user.params (todd false "absent" false))
           (influxdb_user.mkParams "localhost" 8086 "root" "root"
              "todd" "other" true "absent")); reflexivity.
Defined.

(** * Dry runs and printed messages *)

(** ** Masking *)

Lemma prefix_app (s r : string) : String.prefix s (s ++ r) = true.
Proof.
  induction s as [|c s IH].
  - destruct r; reflexivity.
  - change (String c s ++ r)%string with (String c (s ++ r)%string). cbn [String.prefix].
    destruct (Ascii.ascii_dec c c) as [_|Hne]; [exact IH | contradiction].
Qed.

Lemma prefix_refl (s : string) : String.prefix s s = true.
Proof.
  induction s as [|c s IH]; [reflexivity|]. cbn [String.prefix].
  destruct (Ascii.ascii_dec c c) as [_|Hne]; [exact IH | contradiction].
Qed.

Lemma occurs_refl (s : string) : occurs s s = true.
Proof. destruct s; cbn [occurs]; rewrite prefix_refl; reflexivity. Qed.

Lemma occurs_app_l (old r : string) : occurs old (old ++ r) = true.
Proof.
  pose proof (prefix_app old r) as H.
  destruct (old ++ r)%string; cbn [occurs]; rewrite H; reflexivity.
Qed.

Lemma occurs_cons (old s : string) (c : ascii) :
  occurs old s = true -> occurs old (String c s) = true.
Proof. intros H. cbn [occurs]. rewrite H. apply orb_true_r. Qed.

Lemma occurs_app_r (old pre s : string) :
  occurs old s = true -> occurs old (pre ++ s) = true.
Proof.
  intros H. induction pre as [|c pre IH]; [exact H|].
  change (String c pre ++ s)%string with (String c (pre ++ s)%string).
  apply occurs_cons. exact IH.
Qed.

(** A pattern that does not occur is not replaced. *)
Lemma replace_absent (old new s : string) :
  old <> EmptyString -> occurs old s = false -> replace old new s = s.
Proof.
  intros Hne. destruct old as [|a old]; [contradiction|]. unfold replace.
  induction s as [|c s IH]; [reflexivity|].
  intros Hno. cbn [occurs] in Hno. apply orb_false_elim in Hno as [Hpre Hrest].
  cbn [replace_from]. rewrite Hpre. f_equal. exact (IH Hrest).
Qed.

Lemma elem_of_no_log_set (values : list string) (v : string) :
  v ∈ no_log_set values <-> v ∈ values /\ v <> EmptyString.
Proof.
  unfold no_log_set. rewrite elem_of_remove_dups, list_elem_of_In, filter_In,
    <- list_elem_of_In, negb_true_iff, String.eqb_neq. reflexivity.
Qed.

(** A message in which none of the masked values occurs is printed as it
    is. *)
Lemma remove_values_absent (no_log_strings : list string) (msg : string) :
  (forall v, v ∈ no_log_strings -> v <> EmptyString /\ occurs v msg = false) ->
  remove_values no_log_strings msg = msg.
Proof.
  intros Habsent. unfold remove_values.
  assert (existsb (String.eqb msg) no_log_strings = false) as ->.
  { apply not_true_is_false. intros Hex. apply existsb_exists in Hex as [v [Hv Heq]].
    apply String.eqb_eq in Heq. subst v.
    destruct (Habsent msg) as [_ Hno]; [apply list_elem_of_In; exact Hv|].
    rewrite occurs_refl in Hno. discriminate. }
  induction no_log_strings as [|v l IH]; [reflexivity|].
  cbn [fold_left]. destruct (Habsent v ltac:(left)) as [Hne Hno].
  rewrite (replace_absent _ _ _ Hne Hno).
  apply IH. intros w Hw. apply Habsent. right. exact Hw.
Qed.

(** ** Dry runs *)

(** The flag of a dry run is not always the flag of the real run: when
    the server rejects the drop, the dry run reports [changed=true] and
    the real run ends in a fatal error, with no flag. *)
Lemma dry_run_flag_differs :
  ~ dry_run_same_flag
      (run Server.read_only (influxdb_user.main true (todd false "absent" true)) todd_server)
      (run Server.read_only (influxdb_user.main true (todd false "absent" false)) todd_server).
Proof.
  intros [_ Hflag]. vm_compute in Hflag. discriminate Hflag.
Qed.

(** C5, amended.  For every parameter set, server and server state, for
    both scripts: the dry run makes no mutating call; it is the real run
    of the same invocation when that one mutates nothing; when the real
    run makes a mutating call, the dry run is the real run cut before that
    call and reports [changed=true], which the real run reports too if the
    call returns; hence whenever the real run reports a flag the dry run
    reports the same.  And the dry run does report: on a server that
    answers the listings, it reports [changed=true] in the rows of the
    tables where something is to be done and [changed=false] in the
    others. *)
Theorem dry_run_agrees_with_real {S : Type} (srv : server S) (s : S) (HAS_INFLUXDB : bool)
    (p_user : influxdb_user.Params) (p_privs : influxdb_privs.Params) :
  dry_run_agrees
    (run srv (influxdb_user.main HAS_INFLUXDB (influxdb_user.mkModule p_user true)) s)
    (run srv (influxdb_user.main HAS_INFLUXDB (influxdb_user.mkModule p_user false)) s) /\
  dry_run_agrees
    (run srv (influxdb_privs.main HAS_INFLUXDB (influxdb_privs.mkModule p_privs true)) s)
    (run srv (influxdb_privs.main HAS_INFLUXDB (influxdb_privs.mkModule p_privs false)) s) /\
  user_dry_table srv s p_user /\
  privs_dry_table srv s p_privs.
Proof.
  split; [|split; [|split]].
  - unfold dry_run_agrees. split; [|split; [|split]].
    + unfold_scripts. split_run; reflexivity.
    + unfold_scripts. split_run; first [reflexivity | discriminate].
    + intros c. unfold_scripts.
      split_run; intros Hm; try discriminate Hm; injection Hm as <-;
        (split; [reflexivity|]); (split; [eexists; reflexivity|]);
        intros Hin; in_log Hin; reflexivity.
    + intros b. unfold_scripts. split_run; congruence.
  - unfold dry_run_agrees. split; [|split; [|split]].
    + unfold_scripts. split_run; reflexivity.
    + unfold_scripts. split_run; first [reflexivity | discriminate].
    + intros c. unfold_scripts.
      split_run; intros Hm; try discriminate Hm; injection Hm as <-;
        (split; [reflexivity|]); (split; [eexists; reflexivity|]);
        intros Hin; in_log Hin; reflexivity.
    + intros b. unfold_scripts. split_run; congruence.
  - unfold user_dry_table, reports. intros users s' Hlist. cbn zeta.
    split; [|split; [|split; [|split]]].
    + intros Hstate u Hfound Hadmin. unfold_scripts. cbn.
      rewrite Hstate, Hlist. cbn. rewrite Hfound. cbn.
      rewrite Hadmin, Bool.eqb_reflx. cbn. split; reflexivity.
    + intros Hstate u Hfound Hadmin. unfold_scripts. cbn.
      rewrite Hstate, Hlist. cbn. rewrite Hfound. cbn.
      rewrite (proj2 (Bool.eqb_false_iff _ _) Hadmin).
      destruct (influxdb_user.admin p_user); cbn; split; reflexivity.
    + intros Hstate Hfound. unfold_scripts. cbn.
      rewrite Hstate, Hlist. cbn. rewrite Hfound. cbn. split; reflexivity.
    + intros Hstate u Hfound. unfold_scripts. cbn.
      rewrite Hstate, Hlist. cbn. rewrite Hfound. cbn. split; reflexivity.
    + intros Hstate Hfound. unfold_scripts. cbn.
      rewrite Hstate, Hlist. cbn. rewrite Hfound. cbn. split; reflexivity.
  - unfold privs_dry_table, reports. intros users s' u grants s'' Hlist Huser Hgrants.
    cbn zeta. split; [|split; [|split]].
    + intros Hstate Hsome. apply first_grant_is_Some in Hsome as [g Hg].
      unfold_scripts. cbn. rewrite Hstate, Hlist. cbn. rewrite Huser. cbn.
      rewrite Hgrants. cbn. rewrite Hg. cbn. split; reflexivity.
    + intros Hstate Hnone. apply first_grant_None in Hnone.
      unfold_scripts. cbn. rewrite Hstate, Hlist. cbn. rewrite Huser. cbn.
      rewrite Hgrants. cbn. rewrite Hnone. cbn. split; reflexivity.
    + intros Hstate Hsome. apply first_grant_is_Some in Hsome as [g Hg].
      unfold_scripts. cbn. rewrite Hstate, Hlist. cbn. rewrite Huser. cbn.
      rewrite Hgrants. cbn. rewrite Hg. cbn. split; reflexivity.
    + intros Hstate Hnone. apply first_grant_None in Hnone.
      unfold_scripts. cbn. rewrite Hstate, Hlist. cbn. rewrite Huser. cbn.
      rewrite Hgrants. cbn. rewrite Hnone. cbn. split; reflexivity.
Qed.

Lemma dry_run_agrees_with_real_witness :
  reports (run Server.step (influxdb_user.main true (todd true "present" true)) Server.empty)
    [] true /\
  outcome (run Server.read_only (influxdb_user.main true (todd false "absent" true)) todd_server)
  = Exits (Changed true).
Proof.
  split.
  - destruct (dry_run_agrees_with_real Server.step Server.empty true
                (influxdb_user.params (todd true "present" true))
                (influxdb_privs.params (todd_privs "all" "present" true)))
      as (_ & _ & Htable & _).
    destruct (Htable [] Server.empty eq_refl) as (_ & _ & Hcreate & _).
    exact (Hcreate eq_refl eq_refl).
  - destruct (dry_run_agrees_with_real Server.read_only todd_server true
                (influxdb_user.params (todd false "absent" true))
                (influxdb_privs.params (todd_privs "all" "present" true)))
      as ((_ & _ & Hcut & _) & _).
    exact (proj1 (Hcut (InfluxDBClient.drop_user "todd") eq_refl)).
Defined.

(** ** Error messages *)

(** The fatal message is not always the text of the error: with the
    default login of the scripts, [root] with password [root], a server
    that rejects a drop in words that name the login has those words
    printed with the name masked, the password being a [no_log]
    parameter. *)
Lemma error_not_printed_verbatim :
  ~ prints_verbatim (influxdb_user.no_log_values (todd false "absent" false))
      (run (Server.unauthorized "root") (influxdb_user.main true (todd false "absent" false))
         todd_server).
Proof.
  intros Hverbatim.
  destruct (Hverbatim (InfluxDBClient.drop_user "todd")
              (InfluxDBClientError "user root not authorized")
              ltac:(vm_compute; right; left)) as [_ Hcontent].
  specialize (Hcontent "user root not authorized" eq_refl eq_refl).
  vm_compute in Hcontent. discriminate Hcontent.
Qed.

(** C7, amended.  In every run of either script: a [ConnectionError]
    raised by listing the users, listing the grants, creating a user or
    granting a privilege is caught and handed to [fail_json] as its text,
    and an [InfluxDBClientError] raised by dropping a user, granting or
    revoking administrator rights or revoking a privilege is caught and
    handed to [fail_json] as its content; the run ends with that fatal
    error, whose printed message is the text, or the content, with the
    values of the [no_log] parameters masked; it is the text or the
    content word for word when none of those values occurs in it. *)
Theorem errors_surface_masked {S : Type} (srv : server S) (s : S) (HAS_INFLUXDB : bool)
    (m_user : influxdb_user.AnsibleModule) (m_privs : influxdb_privs.AnsibleModule) :
  let e_user := run srv (influxdb_user.main HAS_INFLUXDB m_user) s in
  let e_privs := run srv (influxdb_privs.main HAS_INFLUXDB m_privs) s in
  (surfaces e_user /\ prints_masked (influxdb_user.no_log_values m_user) e_user) /\
  (surfaces e_privs /\ prints_masked (influxdb_privs.no_log_values m_privs) e_privs) /\
  (forall msg,
     (forall v, v ∈ influxdb_user.no_log_values m_user -> occurs v msg = false) ->
     remove_values (influxdb_user.no_log_values m_user) msg = msg) /\
  (forall msg,
     (forall v, v ∈ influxdb_privs.no_log_values m_privs -> occurs v msg = false) ->
     remove_values (influxdb_privs.no_log_values m_privs) msg = msg).
Proof.
  cbn zeta.
  assert (Huser : surfaces (run srv (influxdb_user.main HAS_INFLUXDB m_user) s)).
  { unfold surfaces. intros c x. unfold_scripts.
    split_run; intros Hin; in_log Hin;
      (split; intros ? Hclass Hx; first [discriminate | congruence]). }
  assert (Hprivs : surfaces (run srv (influxdb_privs.main HAS_INFLUXDB m_privs) s)).
  { unfold surfaces. intros c x. unfold_scripts.
    split_run; intros Hin; in_log Hin;
      (split; intros ? Hclass Hx; first [discriminate | congruence]). }
  split; [|split; [|split]].
  - split; [exact Huser|]. intros c x Hin. destruct (Huser c x Hin) as [Ht Hr].
    split; intros msg Hclass Hx.
    + rewrite (Ht msg Hclass Hx). reflexivity.
    + rewrite (Hr msg Hclass Hx). reflexivity.
  - split; [exact Hprivs|]. intros c x Hin. destruct (Hprivs c x Hin) as [Ht Hr].
    split; intros msg Hclass Hx.
    + rewrite (Ht msg Hclass Hx). reflexivity.
    + rewrite (Hr msg Hclass Hx). reflexivity.
  - intros msg Habsent. apply remove_values_absent. intros v Hv.
    split; [|exact (Habsent v Hv)].
    apply elem_of_no_log_set in Hv as [_ Hne]. exact Hne.
  - intros msg Habsent. apply remove_values_absent. intros v Hv.
    split; [|exact (Habsent v Hv)].
    apply elem_of_no_log_set in Hv as [_ Hne]. exact Hne.
Qed.

Lemma errors_surface_masked_witness :
  printed (influxdb_user.no_log_values (todd false "absent" false))
    (outcome (run (Server.unauthorized "root")
                (influxdb_user.main true (todd false "absent" false)) todd_server))
  = Exits (Failed "user ******** not authorized") /\
  printed (influxdb_privs.no_log_values (todd_privs "all" "present" false))
    (outcome (run Server.unreachable
                (influxdb_privs.main true (todd_privs "all" "present" false)) todd_server))
  = Exits (Failed "Connection refused").
Proof.
  pose proof (errors_surface_masked (Server.unauthorized "root") todd_server true
                (todd false "absent" false) (todd_privs "all" "present" false))
    as ((_ & Huser) & _).
  pose proof (errors_surface_masked Server.unreachable todd_server true
                (todd false "absent" false) (todd_privs "all" "present" false))
    as (_ & (_ & Hprivs) & _).
  split.
  - exact (proj2 (Huser (InfluxDBClient.drop_user "todd")
                        (InfluxDBClientError "user root not authorized")
                        ltac:(vm_compute; right; left))
                 "user root not authorized" eq_refl eq_refl).
  - exact (proj1 (Hprivs InfluxDBClient.get_list_users
                         (ConnectionError "Connection refused")
                         ltac:(vm_compute; left))
                 "Connection refused" eq_refl eq_refl).
Defined.

(** ** The privilege module on an unknown user *)

(** The message for an unknown user does not always name that user: with
    the default login password [root], asking for the privileges of a
    user called [root] that the server does not have prints a message in
    which the name is masked. *)
Lemma missing_user_not_named :
  ~ names_missing_user Server.step Server.empty root_privs.
Proof.
  intros Hnamed.
  destruct (Hnamed [] Server.empty eq_refl) as [_ [msg [Hprinted Hoccurs]]].
  - intros u Hu. inversion Hu.
  - vm_compute in Hprinted. injection Hprinted as <-.
    vm_compute in Hoccurs. discriminate Hoccurs.
Qed.

(** C6, amended.  When the list of users the server returns holds no user
    of the requested name, a run of the privilege module consists of that
    one listing call and ends with a fatal error, whatever the requested
    state and mode: the grants are never fetched and nothing is mutated.
    The message handed to [fail_json] is [No user "<username>".], which
    names the user; it is printed with the occurrences of the login
    password masked, hence word for word when the login password is empty
    or does not occur in it. *)
Theorem privs_unknown_user_fails {S : Type} (srv : server S) (s s' : S)
    (module : influxdb_privs.AnsibleModule) (users : list User) :
  srv InfluxDBClient.get_list_users s = (inl users, s') ->
  (forall u, u ∈ users -> u_user u <> influxdb_privs.username (influxdb_privs.params module)) ->
  let p := influxdb_privs.params module in
  let e := run srv (influxdb_privs.main true module) s in
  let text := ("No user " ++ String "034"%char
                              (influxdb_privs.username p ++ String "034"%char "."))%string in
  e = mkExecution [(InfluxDBClient.get_list_users, None)] s' (Exits (Failed text)) /\
  occurs (influxdb_privs.username p) text = true /\
  printed (influxdb_privs.no_log_values module) (outcome e)
  = Exits (Failed (remove_values (influxdb_privs.no_log_values module) text)) /\
  (influxdb_privs.login_password p = EmptyString \/
   occurs (influxdb_privs.login_password p) text = false ->
   printed (influxdb_privs.no_log_values module) (outcome e) = Exits (Failed text)).
Proof.
  intros Hlist Hmissing p e text. apply first_user_None in Hmissing.
  assert (He : e = mkExecution [(InfluxDBClient.get_list_users, None)] s'
                     (Exits (Failed text))).
  { subst e text p. unfold_scripts. cbn. rewrite Hlist. cbn. rewrite Hmissing. reflexivity. }
  split; [exact He|]. split; [|split].
  - subst text. apply (occurs_app_r _ "No user "). apply occurs_cons. apply occurs_app_l.
  - rewrite He. reflexivity.
  - intros Hpassword. rewrite He. cbn [outcome printed]. do 2 f_equal.
    apply remove_values_absent. intros v Hv.
    apply elem_of_no_log_set in Hv as [Hv Hne]. split; [exact Hne|].
    apply list_elem_of_singleton in Hv. subst v.
    destruct Hpassword as [Hempty|Habsent]; [contradiction | exact Habsent].
Qed.

Lemma privs_unknown_user_fails_witness :
  run Server.step (influxdb_privs.main true eve_privs) todd_server =
    mkExecution [(InfluxDBClient.get_list_users, None)] todd_server
      (Exits (Failed ("No user " ++ String "034"%char ("eve" ++ String "034"%char "."))%string)) /\
  printed (influxdb_privs.no_log_values eve_privs)
    (outcome (run Server.step (influxdb_privs.main true eve_privs) todd_server))
  = Exits (Failed ("No user " ++ String "034"%char ("eve" ++ String "034"%char "."))%string).
Proof.
  destruct (privs_unknown_user_fails Server.step todd_server todd_server eve_privs
              [mkUser "todd" false] eq_refl) as (Hrun & _ & _ & Hprinted).
  - intros u Hu. apply list_elem_of_singleton in Hu. subst u. discriminate.
  - split; [exact Hrun|]. apply Hprinted. right. reflexivity.
Defined.

(** ** Masking on sample messages *)

(** [str.replace] goes from left to right and does not revisit what it
    has replaced. *)
Example replace_left_to_right :
  replace "aa" "-" "aaaaa" = "--a" /\ replace "ab" "X" "cabab" = "cXX" /\
  replace "root" "********" "user root not authorized" = "user ******** not authorized".
Proof. repeat split. Qed.

(** With the default login password, the message for an unknown user
    called [root] is printed without the name. *)
Example unknown_root_masked :
  printed (influxdb_privs.no_log_values root_privs)
    (outcome (run Server.step (influxdb_privs.main true root_privs) Server.empty))
  = Exits (Failed ("No user " ++ String "034"%char ("********" ++ String "034"%char "."))%string).
Proof. reflexivity. Qed.

(** A message that is itself a masked value is replaced as a whole, and
    the empty password masks nothing. *)
Example whole_message_masked :
  remove_values (no_log_set ["root"; "secret"]) "secret"
  = "VALUE_SPECIFIED_IN_NO_LOG_PARAMETER" /\
  remove_values (no_log_set [EmptyString]) "Connection refused" = "Connection refused".
Proof. split; reflexivity. Qed.
